(** * Alfamart stock management: the stock-transaction core

    A shallow embedding of the stock ledger of [models/product.py], the
    transaction classes and factory of [models/stock_transaction.py] and the
    stock route of [routes/product.py], followed by the properties of the
    specification that concern them.

    Conventions of the embedding.
    - Python integers are [Z]; unit costs are rationals [Q] (only their sign
      and their being zero are ever inspected); text is [string], read as
      ASCII text.
    - A method that mutates [self] is a computation in the monad [M S], a
      state transformer that either returns a value or raises an exception.
      Unlike a rollback, a raised exception keeps every write made before
      it, as a Python object does.
    - Exceptions carry the very text of the source's messages.
    - [datetime.utcnow()] is a parameter [utcnow] of the methods that stamp
      [_updated_at]: one clock reading per request. *)

From Stdlib Require Import ZArith QArith String Ascii List Bool Lia.
From Stdlib Require Import DecimalString Qabs.
Import ListNotations.

Local Open Scope string_scope.
Local Open Scope Z_scope.

(** ** Python runtime *)

Module Py.

(** The exceptions the modelled code raises.  [TypeError] is what a call
    with a missing or an unexpected keyword argument raises;
    [OverflowError] is what the database driver raises for an integer its
    column cannot hold. *)
Inductive exception : Type :=
| ValueError (msg : string)
| NotImplementedError (msg : string)
| TypeError
| NotFound
| OverflowError.

Inductive outcome (A : Type) : Type :=
| Returns (a : A)
| Raises (e : exception).
Arguments Returns {A} a.
Arguments Raises {A} e.

(** Computations over a mutable object of type [S]. *)
Definition M (S A : Type) : Type := S -> outcome A * S.

Definition ret {S A} (a : A) : M S A := fun s => (Returns a, s).

Definition bind {S A B} (c : M S A) (k : A -> M S B) : M S B :=
  fun s =>
    match c s with
    | (Returns a, s') => k a s'
    | (Raises e, s') => (Raises e, s')
    end.

Definition raise {S A} (e : exception) : M S A := fun s => (Raises e, s).

Definition get {S} : M S S := fun s => (Returns s, s).

Definition put {S} (s : S) : M S unit := fun _ => (Returns tt, s).

Definition gets {S A} (f : S -> A) : M S A := fun s => (Returns (f s), s).

Definition modify {S} (f : S -> S) : M S unit := fun s => (Returns tt, f s).

(** [for c in cs: c()], stopping at the first exception. *)
Fixpoint for_each {S A} (f : A -> M S unit) (l : list A) : M S unit :=
  match l with
  | [] => ret tt
  | a :: l' => bind (f a) (fun _ => for_each f l')
  end.

(** [str(n)] for an integer. *)
Definition str (n : Z) : string := NilZero.string_of_int (Z.to_int n).

(** [sep.join(l)] *)
Definition join (sep : string) (l : list string) : string :=
  String.concat sep l.

(** [c.isspace()] on ASCII: tab to carriage return, the four separators
    and the blank. *)
Definition isspace (c : ascii) : bool :=
  let n := N_of_ascii c in
  ((9 <=? n) && (n <=? 13) || (28 <=? n) && (n <=? 32))%N.

Fixpoint lstrip (s : string) : string :=
  match s with
  | EmptyString => EmptyString
  | String c s' => if isspace c then lstrip s' else s
  end.

Fixpoint rstrip (s : string) : string :=
  match s with
  | EmptyString => EmptyString
  | String c s' =>
      match rstrip s' with
      | EmptyString => if isspace c then EmptyString else String c EmptyString
      | r => String c r
      end
  end.

(** [s.strip()] *)
Definition strip (s : string) : string := rstrip (lstrip s).

Definition upper_char (c : ascii) : ascii :=
  let n := N_of_ascii c in
  if ((97 <=? n) && (n <=? 122))%N then ascii_of_N (n - 32) else c.

(** [s.upper()] *)
Fixpoint upper (s : string) : string :=
  match s with
  | EmptyString => EmptyString
  | String c s' => String (upper_char c) (upper s')
  end.

(** [len(s)] *)
Definition len (s : string) : Z := Z.of_nat (String.length s).

(** Truth value of an optional string: [None] and [''] are false. *)
Definition truthy_str (s : option string) : bool :=
  match s with
  | None | Some EmptyString => false
  | Some _ => true
  end.

(** Truth value of an optional integer: [None] and [0] are false. *)
Definition truthy_int (n : option Z) : bool :=
  match n with
  | None => false
  | Some k => negb (k =? 0)
  end.

(** A point in time, as a count of clock ticks. *)
Definition datetime : Type := Z.

End Py.

Import Py.

Declare Scope py_scope.
Delimit Scope py_scope with py.
Notation "x <- c ;; k" := (bind c (fun x => k))
  (at level 61, c at next level, right associativity) : py_scope.
Notation "c ;; k" := (bind c (fun _ => k))
  (at level 61, right associativity) : py_scope.
Local Open Scope py_scope.

(** ** models/product.py *)

Module product.

(** The columns of [Product] that the stock operations read or write.
    Name, code, prices and the other descriptive columns are never touched
    by them and are left out. *)
Record Product : Type := mkProduct {
  _stock_quantity : Z;
  _minimum_stock : Z;
  _maximum_stock : Z;
  _updated_at : option datetime
}.

Definition set_stock_quantity (q : Z) (self : Product) : Product :=
  {| _stock_quantity := q;
     _minimum_stock := _minimum_stock self;
     _maximum_stock := _maximum_stock self;
     _updated_at := _updated_at self |}.

Definition set_updated_at (now : datetime) (self : Product) : Product :=
  {| _stock_quantity := _stock_quantity self;
     _minimum_stock := _minimum_stock self;
     _maximum_stock := _maximum_stock self;
     _updated_at := Some now |}.

Section Methods.

Variable utcnow : datetime.

Definition add_stock (quantity : Z) : M Product Z :=
  if quantity <=? 0 then
    raise (ValueError "Quantity to add must be positive")
  else
    self <- get ;;
    let new_quantity := _stock_quantity self + quantity in
    if new_quantity >? _maximum_stock self then
      raise (ValueError ("Adding " ++ str quantity
               ++ " would exceed maximum stock limit of "
               ++ str (_maximum_stock self)))
    else
      modify (set_stock_quantity new_quantity) ;;
      modify (set_updated_at utcnow) ;;
      gets _stock_quantity.

Definition reduce_stock (quantity : Z) : M Product Z :=
  if quantity <=? 0 then
    raise (ValueError "Quantity to reduce must be positive")
  else
    self <- get ;;
    if quantity >? _stock_quantity self then
      raise (ValueError ("Cannot reduce " ++ str quantity
               ++ " items. Only " ++ str (_stock_quantity self)
               ++ " available"))
    else
      modify (set_stock_quantity (_stock_quantity self - quantity)) ;;
      modify (set_updated_at utcnow) ;;
      gets _stock_quantity.

End Methods.

Definition check_availability (self : Product) (required_quantity : Z) : bool :=
  _stock_quantity self >=? required_quantity.

Definition get_stock_status (self : Product) : string :=
  if _stock_quantity self =? 0 then "OUT_OF_STOCK"
  else if _stock_quantity self <=? _minimum_stock self then "LOW_STOCK"
  else if _stock_quantity self >=? _maximum_stock self then "OVERSTOCK"
  else "NORMAL".

Definition set_minimum_stock (v : Z) (self : Product) : Product :=
  {| _stock_quantity := _stock_quantity self;
     _minimum_stock := v;
     _maximum_stock := _maximum_stock self;
     _updated_at := _updated_at self |}.

Definition set_maximum_stock (v : Z) (self : Product) : Product :=
  {| _stock_quantity := _stock_quantity self;
     _minimum_stock := _minimum_stock self;
     _maximum_stock := v;
     _updated_at := _updated_at self |}.

Definition set_stock_limits (minimum maximum : Z) : M Product unit :=
  if minimum <? 0 then
    raise (ValueError "Minimum stock cannot be negative")
  else if maximum <? minimum then
    raise (ValueError "Maximum stock cannot be less than minimum stock")
  else
    modify (set_minimum_stock minimum) ;;
    modify (set_maximum_stock maximum).

End product.

(** ** models/stock_transaction.py *)

Module stock_transaction.

Import product.

Inductive TransactionType : Type :=
| STOCK_IN
| STOCK_OUT
| ADJUSTMENT
| TRANSFER
| RETURN.

(** The name of a member, which is also its value. *)
Definition TransactionType_name (t : TransactionType) : string :=
  match t with
  | STOCK_IN => "STOCK_IN"
  | STOCK_OUT => "STOCK_OUT"
  | ADJUSTMENT => "ADJUSTMENT"
  | TRANSFER => "TRANSFER"
  | RETURN => "RETURN"
  end.

(** The class of a transaction object: the base class or one of its
    three subclasses. *)
Inductive class : Type :=
| StockTransaction_class
| StockInTransaction
| StockOutTransaction
| StockAdjustmentTransaction.

(** A transaction object.  [product] is the ORM relationship: the bound
    [Product] object, or [None] when there is none to load.  The last three
    fields are the plain attributes the subclasses set. *)
Record StockTransaction : Type := mkStockTransaction {
  __class__ : class;
  transaction_type : option TransactionType;
  _reference_number : string;
  _quantity : Z;
  _unit_cost : option Q;
  _notes : option string;
  _processed_by : option string;
  _is_processed : bool;
  product_id : option Z;
  _updated_at : option datetime;
  product : option Product;
  _supplier_reference : option string;
  _customer_reference : option string;
  _reason : option string
}.

(** The object [__init__] receives: no attribute assigned yet. *)
Definition __new__ (cls : class) : StockTransaction :=
  mkStockTransaction cls None "" 0 None None None false None None None
    None None None.

(** Attribute assignment. *)
Definition set_transaction_type v (self : StockTransaction) :=
  let '(mkStockTransaction c _ r q u n b i p t o s1 s2 s3) := self in
  mkStockTransaction c v r q u n b i p t o s1 s2 s3.
Definition set__reference_number v (self : StockTransaction) :=
  let '(mkStockTransaction c y _ q u n b i p t o s1 s2 s3) := self in
  mkStockTransaction c y v q u n b i p t o s1 s2 s3.
Definition set__quantity v (self : StockTransaction) :=
  let '(mkStockTransaction c y r _ u n b i p t o s1 s2 s3) := self in
  mkStockTransaction c y r v u n b i p t o s1 s2 s3.
Definition set__unit_cost v (self : StockTransaction) :=
  let '(mkStockTransaction c y r q _ n b i p t o s1 s2 s3) := self in
  mkStockTransaction c y r q v n b i p t o s1 s2 s3.
Definition set__notes v (self : StockTransaction) :=
  let '(mkStockTransaction c y r q u _ b i p t o s1 s2 s3) := self in
  mkStockTransaction c y r q u v b i p t o s1 s2 s3.
Definition set__processed_by v (self : StockTransaction) :=
  let '(mkStockTransaction c y r q u n _ i p t o s1 s2 s3) := self in
  mkStockTransaction c y r q u n v i p t o s1 s2 s3.
Definition set__is_processed v (self : StockTransaction) :=
  let '(mkStockTransaction c y r q u n b _ p t o s1 s2 s3) := self in
  mkStockTransaction c y r q u n b v p t o s1 s2 s3.
Definition set_product_id v (self : StockTransaction) :=
  let '(mkStockTransaction c y r q u n b i _ t o s1 s2 s3) := self in
  mkStockTransaction c y r q u n b i v t o s1 s2 s3.
Definition set__updated_at v (self : StockTransaction) :=
  let '(mkStockTransaction c y r q u n b i p _ o s1 s2 s3) := self in
  mkStockTransaction c y r q u n b i p v o s1 s2 s3.
Definition set_product v (self : StockTransaction) :=
  let '(mkStockTransaction c y r q u n b i p t _ s1 s2 s3) := self in
  mkStockTransaction c y r q u n b i p t v s1 s2 s3.
Definition set__supplier_reference v (self : StockTransaction) :=
  let '(mkStockTransaction c y r q u n b i p t o _ s2 s3) := self in
  mkStockTransaction c y r q u n b i p t o v s2 s3.
Definition set__customer_reference v (self : StockTransaction) :=
  let '(mkStockTransaction c y r q u n b i p t o s1 _ s3) := self in
  mkStockTransaction c y r q u n b i p t o s1 v s3.
Definition set__reason v (self : StockTransaction) :=
  let '(mkStockTransaction c y r q u n b i p t o s1 s2 _) := self in
  mkStockTransaction c y r q u n b i p t o s1 s2 v.

(** [x < y] and [x <= y] on unit costs. *)
Definition Qltb (x y : Q) : bool := negb (Qle_bool y x).

(** *** class StockTransaction *)

Definition reference_number (self : StockTransaction) : string :=
  _reference_number self.

Definition set_reference_number (ref_number : option string)
  : M StockTransaction unit :=
  match ref_number with
  | Some s =>
      if negb (truthy_str ref_number) || (len (strip s) <? 3) then
        raise (ValueError "Reference number must be at least 3 characters long")
      else modify (set__reference_number (upper (strip s)))
  | None =>
      raise (ValueError "Reference number must be at least 3 characters long")
  end.

Definition quantity (self : StockTransaction) : Z := _quantity self.

Definition set_quantity (quantity : Z) : M StockTransaction unit :=
  if quantity =? 0 then
    raise (ValueError "Transaction quantity cannot be zero")
  else modify (set__quantity quantity).

(** [float(self._unit_cost) if self._unit_cost else 0].  The embedding
    keeps the exact number where the program converts it: the conversion
    changes neither the sign of a cost nor whether it is zero unless the
    cost lies outside the range of a float, and the checks read nothing
    else.  The properties that depend on the cost state that range. *)
Definition unit_cost (self : StockTransaction) : Q :=
  match _unit_cost self with
  | Some c => if Qeq_bool c 0 then 0%Q else c
  | None => 0%Q
  end.

Definition set_unit_cost (cost : option Q) : M StockTransaction unit :=
  match cost with
  | Some c =>
      if Qltb c 0 then raise (ValueError "Unit cost cannot be negative")
      else modify (set__unit_cost cost)
  | None => modify (set__unit_cost cost)
  end.

Definition strip_or_None (s : option string) : option string :=
  match s with
  | Some t => if truthy_str s then Some (strip t) else None
  | None => None
  end.

Definition set_notes (notes : option string) : M StockTransaction unit :=
  modify (set__notes (strip_or_None notes)).

Definition set_processed_by (user : option string) : M StockTransaction unit :=
  modify (set__processed_by (strip_or_None user)).

Definition is_processed (self : StockTransaction) : bool := _is_processed self.

Definition StockTransaction__init__
    (reference_number : option string) (product_id : option Z) (quantity : Z)
    (unit_cost : option Q) (notes processed_by : option string)
  : M StockTransaction unit :=
  set_reference_number reference_number ;;
  modify (set_product_id product_id) ;;
  set_quantity quantity ;;
  set_unit_cost unit_cost ;;
  set_notes notes ;;
  set_processed_by processed_by ;;
  modify (set__is_processed false).

(** [errors.append(msg)] under a condition. *)
Definition append_if (cond : bool) (msg : string) (errors : list string)
  : list string :=
  if cond then (errors ++ [msg])%list else errors.

Definition StockTransaction_validate (self : StockTransaction) : list string :=
  let errors := [] in
  let errors :=
    append_if (negb (truthy_str (Some (reference_number self)))
               || (len (strip (reference_number self)) <? 3))
      "Reference number must be at least 3 characters long" errors in
  let errors :=
    append_if (quantity self =? 0)
      "Transaction quantity cannot be zero" errors in
  let errors :=
    append_if (Qltb (unit_cost self) 0)
      "Unit cost cannot be negative" errors in
  let errors :=
    append_if (negb (truthy_int (product_id self)))
      "Product ID is required" errors in
  errors.

Definition StockTransaction_apply_transaction : M StockTransaction unit :=
  raise (NotImplementedError
           "Subclasses must implement _apply_transaction method").

(** [self.product.m(...)]: a method of the bound product, run on it in
    place. *)
Definition on_product {A} (m : M Product A) (p : Product)
  : M StockTransaction A :=
  fun self =>
    let (r, p') := m p in (r, set_product (Some p') self).

(** Calling a class: [__init__] runs on a new object, which is the result
    unless [__init__] raises. *)
Definition construct (cls : class) (init : M StockTransaction unit)
  : outcome StockTransaction :=
  match init (__new__ cls) with
  | (Returns _, self) => Returns self
  | (Raises e, _) => Raises e
  end.

(** *** class StockInTransaction(StockTransaction) *)

Definition StockInTransaction__init__
    (reference_number : option string) (product_id : option Z) (quantity : Z)
    (unit_cost : option Q)
    (supplier_reference notes processed_by : option string)
  : M StockTransaction unit :=
  StockTransaction__init__ reference_number product_id quantity unit_cost
    notes processed_by ;;
  modify (set_transaction_type (Some STOCK_IN)) ;;
  modify (set__supplier_reference supplier_reference).

Definition StockInTransaction_validate (self : StockTransaction)
  : list string :=
  let errors := StockTransaction_validate self in
  let errors :=
    append_if (quantity self <=? 0)
      "Stock in quantity must be positive" errors in
  let errors :=
    append_if (Qeq_bool (unit_cost self) 0 || Qle_bool (unit_cost self) 0)
      "Unit cost is required for stock in transactions" errors in
  errors.

(** *** class StockOutTransaction(StockTransaction) *)

Definition StockOutTransaction__init__
    (reference_number : option string) (product_id : option Z) (quantity : Z)
    (customer_reference notes processed_by : option string)
  : M StockTransaction unit :=
  StockTransaction__init__ reference_number product_id (- Z.abs quantity) None
    notes processed_by ;;
  modify (set_transaction_type (Some STOCK_OUT)) ;;
  modify (set__customer_reference customer_reference).

Definition StockOutTransaction_validate (self : StockTransaction)
  : list string :=
  let errors := StockTransaction_validate self in
  let errors :=
    append_if (quantity self >=? 0)
      "Stock out quantity must be negative" errors in
  let errors :=
    match product self with
    | Some p =>
        append_if (negb (check_availability p (Z.abs (quantity self))))
          ("Insufficient stock. Available: " ++ str (_stock_quantity p)
             ++ ", Required: " ++ str (Z.abs (quantity self)))
          errors
    | None => errors
    end in
  errors.

(** *** class StockAdjustmentTransaction(StockTransaction) *)

Definition StockAdjustmentTransaction__init__
    (reference_number : option string) (product_id : option Z)
    (adjustment_quantity : Z) (reason notes processed_by : option string)
  : M StockTransaction unit :=
  StockTransaction__init__ reference_number product_id adjustment_quantity None
    notes processed_by ;;
  modify (set_transaction_type (Some ADJUSTMENT)) ;;
  modify (set__reason reason).

Definition StockAdjustmentTransaction_validate (self : StockTransaction)
  : list string :=
  let errors := StockTransaction_validate self in
  let errors :=
    append_if (quantity self =? 0)
      "Adjustment quantity cannot be zero" errors in
  let errors :=
    match product self with
    | Some p =>
        append_if ((quantity self <? 0)
                   && negb (check_availability p (Z.abs (quantity self))))
          ("Insufficient stock for adjustment. Available: "
             ++ str (_stock_quantity p)
             ++ ", Required: " ++ str (Z.abs (quantity self)))
          errors
    | None => errors
    end in
  errors.

(** *** Method resolution *)

(** [self.validate()] *)
Definition validate (self : StockTransaction) : list string :=
  match __class__ self with
  | StockTransaction_class => StockTransaction_validate self
  | StockInTransaction => StockInTransaction_validate self
  | StockOutTransaction => StockOutTransaction_validate self
  | StockAdjustmentTransaction => StockAdjustmentTransaction_validate self
  end.

Section Processing.

Variable utcnow : datetime.

Definition StockInTransaction_apply_transaction : M StockTransaction unit :=
  self <- get ;;
  match product self with
  | Some p => on_product (add_stock utcnow (quantity self)) p ;; ret tt
  | None => ret tt
  end.

Definition StockOutTransaction_apply_transaction : M StockTransaction unit :=
  self <- get ;;
  match product self with
  | Some p =>
      on_product (reduce_stock utcnow (Z.abs (quantity self))) p ;; ret tt
  | None => ret tt
  end.

Definition StockAdjustmentTransaction_apply_transaction
  : M StockTransaction unit :=
  self <- get ;;
  match product self with
  | Some p =>
      if quantity self >? 0 then
        on_product (add_stock utcnow (quantity self)) p ;; ret tt
      else
        on_product (reduce_stock utcnow (Z.abs (quantity self))) p ;; ret tt
  | None => ret tt
  end.

(** [self._apply_transaction()] *)
Definition _apply_transaction : M StockTransaction unit :=
  self <- get ;;
  match __class__ self with
  | StockTransaction_class => StockTransaction_apply_transaction
  | StockInTransaction => StockInTransaction_apply_transaction
  | StockOutTransaction => StockOutTransaction_apply_transaction
  | StockAdjustmentTransaction => StockAdjustmentTransaction_apply_transaction
  end.

(** Defined once, in the base class, and inherited by the subclasses. *)
Definition process_transaction : M StockTransaction unit :=
  self <- get ;;
  if _is_processed self then
    raise (ValueError "Transaction already processed")
  else
    let errors := validate self in
    match errors with
    | _ :: _ =>
        raise (ValueError ("Transaction validation failed: "
                             ++ join ", " errors))
    | [] =>
        _apply_transaction ;;
        modify (set__is_processed true) ;;
        modify (set__updated_at (Some utcnow))
    end.

End Processing.

(** *** class TransactionFactory *)

(** The keyword arguments of a call, [**kwargs]: one entry per keyword any
    of the three constructors knows, [None] when the keyword is not
    passed.  A value that may itself be [None] is an [option]. *)
Record kwargs : Type := mk_kwargs {
  kw_reference_number : option (option string);
  kw_product_id : option (option Z);
  kw_quantity : option Z;
  kw_adjustment_quantity : option Z;
  kw_unit_cost : option (option Q);
  kw_supplier_reference : option (option string);
  kw_customer_reference : option (option string);
  kw_reason : option (option string);
  kw_notes : option (option string);
  kw_processed_by : option (option string)
}.

Definition passed {A} (kw : option A) : bool :=
  match kw with Some _ => true | None => false end.

(** A parameter declared with [=None]. *)
Definition or_None {A} (kw : option (option A)) : option A :=
  match kw with Some v => v | None => None end.

(** The call of [StockInTransaction] with the keywords of [kwargs]. *)
Definition StockInTransaction_call (kw : kwargs) : outcome StockTransaction :=
  if passed (kw_adjustment_quantity kw) || passed (kw_customer_reference kw)
     || passed (kw_reason kw)
  then Raises TypeError
  else
    match kw_reference_number kw, kw_product_id kw, kw_quantity kw,
          kw_unit_cost kw with
    | Some reference_number, Some product_id, Some quantity, Some unit_cost =>
        construct StockInTransaction
          (StockInTransaction__init__ reference_number product_id quantity
             unit_cost (or_None (kw_supplier_reference kw))
             (or_None (kw_notes kw)) (or_None (kw_processed_by kw)))
    | _, _, _, _ => Raises TypeError
    end.

(** The call of [StockOutTransaction] with the keywords of [kwargs]. *)
Definition StockOutTransaction_call (kw : kwargs) : outcome StockTransaction :=
  if passed (kw_adjustment_quantity kw) || passed (kw_unit_cost kw)
     || passed (kw_supplier_reference kw) || passed (kw_reason kw)
  then Raises TypeError
  else
    match kw_reference_number kw, kw_product_id kw, kw_quantity kw with
    | Some reference_number, Some product_id, Some quantity =>
        construct StockOutTransaction
          (StockOutTransaction__init__ reference_number product_id quantity
             (or_None (kw_customer_reference kw))
             (or_None (kw_notes kw)) (or_None (kw_processed_by kw)))
    | _, _, _ => Raises TypeError
    end.

(** The call of [StockAdjustmentTransaction] with the keywords of [kwargs]. *)
Definition StockAdjustmentTransaction_call (kw : kwargs)
  : outcome StockTransaction :=
  if passed (kw_quantity kw) || passed (kw_unit_cost kw)
     || passed (kw_supplier_reference kw) || passed (kw_customer_reference kw)
  then Raises TypeError
  else
    match kw_reference_number kw, kw_product_id kw,
          kw_adjustment_quantity kw with
    | Some reference_number, Some product_id, Some adjustment_quantity =>
        construct StockAdjustmentTransaction
          (StockAdjustmentTransaction__init__ reference_number product_id
             adjustment_quantity (or_None (kw_reason kw))
             (or_None (kw_notes kw)) (or_None (kw_processed_by kw)))
    | _, _, _ => Raises TypeError
    end.

(** What a caller may pass as [transaction_type]: a member of the
    enumeration or, the parameter being untyped, a plain string. *)
Inductive tag : Type :=
| Member (t : TransactionType)
| Text (s : string).

(** [f"{transaction_type}"] *)
Definition format_tag (transaction_type : tag) : string :=
  match transaction_type with
  | Member t => "TransactionType." ++ TransactionType_name t
  | Text s => s
  end.

Definition create_transaction (transaction_type : tag) (kw : kwargs)
  : outcome StockTransaction :=
  match transaction_type with
  | Member STOCK_IN => StockInTransaction_call kw
  | Member STOCK_OUT => StockOutTransaction_call kw
  | Member ADJUSTMENT => StockAdjustmentTransaction_call kw
  | _ =>
      Raises (ValueError ("Unsupported transaction type: "
                            ++ format_tag transaction_type))
  end.

Definition get_supported_types : list TransactionType :=
  [STOCK_IN; STOCK_OUT; ADJUSTMENT].

End stock_transaction.

(** ** routes/product.py *)

Module routes_product.

Import product.

(** The JSON body of the request, [None] where a key is missing. *)
Record request_json : Type := mk_request_json {
  operation : option string;
  quantity : option Z
}.

(** The [data] object of a successful response. *)
Record stock_change : Type := mk_stock_change {
  r_operation : string;
  r_quantity_changed : Z;
  r_old_quantity : Z;
  r_new_quantity : Z;
  r_stock_status : string
}.

(** A response: the HTTP status with the data, with a fixed error text,
    or with [str(e)] for the exception [e] a handler caught. *)
Inductive response : Type :=
| success (status : Z) (data : stock_change)
| failure (status : Z) (error : string)
| failure_str (status : Z) (e : exception).

(** A word between double quotes. *)
Definition quoted (s : string) : string :=
  let dq := String (ascii_of_N 34) EmptyString in dq ++ s ++ dq.

(** The integers an [Integer] column of the SQLite database holds: 64 bits,
    signed. *)
Definition fits_integer_column (n : Z) : bool :=
  (- 2 ^ 63 <=? n) && (n <? 2 ^ 63).

Definition same_stamp (a b : option datetime) : bool :=
  match a, b with
  | Some x, Some y => x =? y
  | None, None => true
  | _, _ => false
  end.

Section Handler.

Variable utcnow : datetime.

(** [db.session.commit()] for the product of the request, [row] being the
    product as the query loaded it.  A product without a net change is not
    written.  Otherwise the changed columns are written: the driver raises
    [OverflowError] for a stock outside the range of the column, and a row
    written without a stamp of its own gets one from [onupdate]. *)
Definition commit (row : Product) : M Product unit :=
  product <- get ;;
  let stock_changed :=
    negb (_stock_quantity product =? _stock_quantity row) in
  let stamp_changed :=
    negb (same_stamp (_updated_at product) (_updated_at row)) in
  if negb (stock_changed || stamp_changed) then ret tt
  else if stock_changed && negb (fits_integer_column (_stock_quantity product))
  then raise OverflowError
  else if stamp_changed then ret tt
  else modify (set_updated_at utcnow).

(** The body of the [try] block, on the row [Product.query] found. *)
Definition update_product_stock_body (data : option request_json)
  : M Product response :=
  match data with
  | None => ret (failure 400 "No data provided")
  | Some data =>
      match operation data, quantity data with
      | Some operation, Some quantity =>
          if negb (truthy_str (Some operation)) then
            ret (failure 400 "Operation and quantity are required")
          else if negb (existsb (String.eqb operation) ["add"; "reduce"; "set"])
          then
            ret (failure 400
                   ("Operation must be " ++ quoted "add" ++ ", "
                      ++ quoted "reduce" ++ ", or " ++ quoted "set"))
          else
            row <- get ;;
            let old_quantity := _stock_quantity row in
            let finish new_quantity :=
              commit row ;;
              product <- get ;;
              ret (success 200
                     (mk_stock_change operation quantity old_quantity
                        new_quantity (get_stock_status product))) in
            if String.eqb operation "add" then
              new_quantity <- add_stock utcnow quantity ;;
              finish new_quantity
            else if String.eqb operation "reduce" then
              new_quantity <- reduce_stock utcnow quantity ;;
              finish new_quantity
            else if quantity <? 0 then
              ret (failure 400 "Stock quantity cannot be negative")
            else
              modify (set_stock_quantity quantity) ;;
              finish quantity
      | _, _ => ret (failure 400 "Operation and quantity are required")
      end
  end.

(** [POST /products/<product_id>/stock].  [row] is what
    [Product.query] finds for the id; [get_or_404] raises on a missing
    row inside the [try] block, where the last handler answers 500.
    That handler first calls [db.session.rollback()], after which the
    product is the row as it was loaded; the handler of [ValueError] does
    not.  The result pairs the response with the product as the request
    leaves it. *)
Definition update_product_stock (row : option Product)
    (data : option request_json) : response * option Product :=
  match row with
  | None => (failure_str 500 NotFound, None)
  | Some product =>
      match update_product_stock_body data product with
      | (Returns r, product') => (r, Some product')
      | (Raises (ValueError msg), product') =>
          (failure_str 400 (ValueError msg), Some product')
      | (Raises e, _) => (failure_str 500 e, Some product)
      end
  end.

End Handler.

(** [GET /products/low-stock], on the rows the query for active products
    returned: the products listed and their count. *)
Definition get_low_stock_products (products : list Product)
  : list Product * Z :=
  let low_stock_products :=
    filter (fun p =>
              existsb (String.eqb (get_stock_status p))
                ["LOW_STOCK"; "OUT_OF_STOCK"])
      products in
  (low_stock_products, Z.of_nat (List.length low_stock_products)).

End routes_product.

(** ** routes/stock_transaction.py *)

Module routes_stock_transaction.

Import product stock_transaction.

(** What [create_stock_transaction] has read from the request body once the
    required fields are known to be present: a non-empty reference, a
    nonzero product id and a quantity. *)
Record fields : Type := mk_fields {
  f_reference_number : string;
  f_product_id : Z;
  f_quantity : Z;
  f_unit_cost : option Q;
  f_notes : option string;
  f_processed_by : option string;
  f_supplier_reference : option string;
  f_customer_reference : option string;
  f_reason : option string
}.

(** The route either answers at once or goes on with the keyword
    arguments it has prepared. *)
Inductive prepared : Type :=
| answer (status : Z) (error : string)
| params (kw : kwargs).

(** The step of [create_stock_transaction] that prepares
    [transaction_params]: the five common keys, then the keys of the
    type. *)
Definition transaction_params (transaction_type : TransactionType)
    (data : fields) : prepared :=
  let common :=
    mk_kwargs (Some (Some (f_reference_number data)))
      (Some (Some (f_product_id data))) (Some (f_quantity data)) None
      None None None None
      (Some (f_notes data)) (Some (f_processed_by data)) in
  match transaction_type with
  | STOCK_IN =>
      match f_unit_cost data with
      | Some unit_cost =>
          if Qeq_bool unit_cost 0 || Qle_bool unit_cost 0 then
            answer 400 ("unit_cost is required and must be positive "
                          ++ "for stock in transactions")
          else
            params
              (mk_kwargs (kw_reference_number common) (kw_product_id common)
                 (kw_quantity common) None (Some (Some unit_cost))
                 (Some (f_supplier_reference data)) None None
                 (kw_notes common) (kw_processed_by common))
      | None =>
          answer 400 ("unit_cost is required and must be positive "
                        ++ "for stock in transactions")
      end
  | STOCK_OUT =>
      params
        (mk_kwargs (kw_reference_number common) (kw_product_id common)
           (kw_quantity common) None None None
           (Some (f_customer_reference data)) None
           (kw_notes common) (kw_processed_by common))
  | ADJUSTMENT =>
      params
        (mk_kwargs (kw_reference_number common) (kw_product_id common)
           (kw_quantity common) None None None None
           (Some (f_reason data))
           (kw_notes common) (kw_processed_by common))
  | _ => params common
  end.

(** The call of the factory that follows. *)
Definition create_from_params (transaction_type : TransactionType)
    (data : fields) : prepared + outcome StockTransaction :=
  match transaction_params transaction_type data with
  | params kw => inr (create_transaction (Member transaction_type) kw)
  | early => inl early
  end.

(** The stock of the bound product, [0] without one. *)
Definition stock_or_0 (transaction : StockTransaction) : Z :=
  match product transaction with
  | Some p => _stock_quantity p
  | None => 0
  end.

(** The responses of [process_stock_transaction]: the processed
    transaction with the stock before, the stock after and their
    difference, a fixed error text, or [str(e)] for a caught exception. *)
Inductive response : Type :=
| success (status : Z) (transaction : StockTransaction)
    (old_stock new_stock change : Z)
| failure (status : Z) (error : string)
| failure_str (status : Z) (e : exception).

Section Handler.

Variable utcnow : datetime.

(** The body of the [try] block, on the row the query found. *)
Definition process_stock_transaction_body : M StockTransaction response :=
  transaction <- get ;;
  if is_processed transaction then
    ret (failure 409 "Transaction is already processed")
  else
    let old_stock := stock_or_0 transaction in
    process_transaction utcnow ;;
    transaction <- get ;;
    let new_stock := stock_or_0 transaction in
    ret (success 200 transaction old_stock new_stock (new_stock - old_stock)).

(** [POST /stock-transactions/<transaction_id>/process].  [row] is what
    the query finds for the id; [get_or_404] raises on a missing row inside
    the [try] block, where the last handler answers 500. *)
Definition process_stock_transaction (row : option StockTransaction)
  : response * option StockTransaction :=
  match row with
  | None => (failure_str 500 NotFound, None)
  | Some transaction =>
      match process_stock_transaction_body transaction with
      | (Returns r, transaction') => (r, Some transaction')
      | (Raises (ValueError msg), transaction') =>
          (failure_str 400 (ValueError msg), Some transaction')
      | (Raises e, transaction') => (failure_str 500 e, Some transaction')
      end
  end.

End Handler.

End routes_stock_transaction.

(** * Properties *)

Import product stock_transaction.

(** ** The error kinds of the specification

    The code raises [ValueError] throughout and tells the cases apart by the
    message.  Each kind of the specification names one of these messages. *)

Definition InvalidArgument_add : exception :=
  ValueError "Quantity to add must be positive".

Definition InvalidArgument_reduce : exception :=
  ValueError "Quantity to reduce must be positive".

Definition CapacityExceeded (quantity maximum : Z) : exception :=
  ValueError ("Adding " ++ str quantity
                ++ " would exceed maximum stock limit of " ++ str maximum).

Definition InsufficientStock (quantity available : Z) : exception :=
  ValueError ("Cannot reduce " ++ str quantity ++ " items. Only "
                ++ str available ++ " available").

Definition AlreadyProcessed : exception :=
  ValueError "Transaction already processed".

Definition ValidationFailed (errors : list string) : exception :=
  ValueError ("Transaction validation failed: " ++ join ", " errors).

Definition UnsupportedType (transaction_type : tag) : exception :=
  ValueError ("Unsupported transaction type: " ++ format_tag transaction_type).

(** The bounds on the stock of a product. *)
Definition stock_invariant (p : Product) : Prop :=
  0 <= _stock_quantity p <= _maximum_stock p.

(** A call of one of the two stock primitives, and a script of such calls
    run in order on one product. *)
Inductive stock_call : Type :=
| call_add_stock (quantity : Z)
| call_reduce_stock (quantity : Z).

Definition perform (utcnow : datetime) (c : stock_call) : M Product unit :=
  match c with
  | call_add_stock q => add_stock utcnow q ;; ret tt
  | call_reduce_stock q => reduce_stock utcnow q ;; ret tt
  end.

(** A validation message of the insufficient-stock kind. *)
Definition insufficient_stock_error (msg : string) : bool :=
  String.prefix "Insufficient stock" msg.

(** ** Sample objects

    The products of the scenarios of the specification, and a transaction
    of each kind as the factory is asked for it. *)

Definition shelf_product : Product := mkProduct 50 10 200 None.

Definition full_product : Product := mkProduct 100 10 100 None.

Definition no_kwargs : kwargs :=
  mk_kwargs None None None None None None None None None None.

Definition stock_in_kwargs (quantity : Z) : kwargs :=
  mk_kwargs (Some (Some " si-001 ")) (Some (Some 7)) (Some quantity) None
    (Some (Some (5 # 2)%Q)) None None None None None.

Definition stock_out_kwargs (quantity : Z) : kwargs :=
  mk_kwargs (Some (Some "so-001")) (Some (Some 7)) (Some quantity) None
    None None None None None None.

Definition adjustment_kwargs (quantity : Z) : kwargs :=
  mk_kwargs (Some (Some "adj-001")) (Some (Some 7)) None (Some quantity)
    None None None None None None.

(** The object [StockInTransaction("SI-001", 7, quantity, 2.5)], with the
    given product bound and the given processed flag. *)
Definition stock_in_object (quantity : Z) (bound : option Product)
    (processed : bool) : StockTransaction :=
  mkStockTransaction StockInTransaction (Some STOCK_IN) "SI-001" quantity
    (Some (5 # 2)%Q) None None processed (Some 7) None bound None None None.

(** The object [StockOutTransaction("SO-001", 7, 5)] with a product bound. *)
Definition stock_out_object (bound : option Product) : StockTransaction :=
  mkStockTransaction StockOutTransaction (Some STOCK_OUT) "SO-001" (-5)
    None None None false (Some 7) None bound None None None.

(** A text that does not begin with white space. *)
Definition starts_clean (s : string) : Prop :=
  match s with
  | EmptyString => True
  | String c _ => isspace c = false
  end.

(** The errors of a constructor call: a wrong keyword, or one of the three
    field errors of the base initialiser. *)
Definition constructor_error (e : exception) : Prop :=
  e = TypeError
  \/ e = ValueError "Reference number must be at least 3 characters long"
  \/ e = ValueError "Transaction quantity cannot be zero"
  \/ e = ValueError "Unit cost cannot be negative".

(** The unit costs on which the embedding and the program read the same
    thing.  The program reads a unit cost through [float]; the embedding
    keeps the exact number.  The two agree on whether the cost is zero and
    on its sign when the cost is zero or its magnitude lies between
    [2^-1074], the smallest positive float, and [2^1023]: below that range
    [float] may give [0.0], above it [float] raises [OverflowError] for an
    integer. *)
Definition float_safe (c : Q) : Prop :=
  (c == 0 \/ (1 # 2 ^ 1074 <= Qabs c /\ Qabs c <= 2 ^ 1023 # 1))%Q.

(** The fields of a request to the create route. *)
Definition route_fields (quantity : Z) : routes_stock_transaction.fields :=
  routes_stock_transaction.mk_fields " so-001" 7 quantity
    None None None None None None.

(** The body of a request to the stock route. *)
Definition stock_request (operation : string) (quantity : Z)
  : option routes_product.request_json :=
  Some (routes_product.mk_request_json (Some operation) (Some quantity)).

(** ** The stock ledger *)

Section Ledger.

Variable utcnow : datetime.

Lemma add_stock_raises_nonpositive (self : Product) (qty : Z) :
  qty <= 0 -> add_stock utcnow qty self = (Raises InvalidArgument_add, self).
Proof.
  intros Hq. unfold add_stock.
  destruct (Z.leb_spec qty 0); [reflexivity | lia].
Qed.

Lemma add_stock_raises_over_capacity (self : Product) (qty : Z) :
  0 < qty -> _stock_quantity self + qty > _maximum_stock self ->
  add_stock utcnow qty self
    = (Raises (CapacityExceeded qty (_maximum_stock self)), self).
Proof.
  intros Hq Hcap. unfold add_stock, bind, get.
  destruct (Z.leb_spec qty 0); [lia |].
  destruct (Z.gtb_spec (_stock_quantity self + qty) (_maximum_stock self));
    [reflexivity | lia].
Qed.

Lemma add_stock_returns (self : Product) (qty : Z) :
  0 < qty -> _stock_quantity self + qty <= _maximum_stock self ->
  add_stock utcnow qty self
    = (Returns (_stock_quantity self + qty),
       set_updated_at utcnow
         (set_stock_quantity (_stock_quantity self + qty) self)).
Proof.
  intros Hq Hcap. unfold add_stock, bind, get.
  destruct (Z.leb_spec qty 0); [lia |].
  destruct (Z.gtb_spec (_stock_quantity self + qty) (_maximum_stock self));
    [lia | reflexivity].
Qed.

Lemma reduce_stock_raises_nonpositive (self : Product) (qty : Z) :
  qty <= 0 ->
  reduce_stock utcnow qty self = (Raises InvalidArgument_reduce, self).
Proof.
  intros Hq. unfold reduce_stock.
  destruct (Z.leb_spec qty 0); [reflexivity | lia].
Qed.

Lemma reduce_stock_raises_insufficient (self : Product) (qty : Z) :
  0 < qty -> qty > _stock_quantity self ->
  reduce_stock utcnow qty self
    = (Raises (InsufficientStock qty (_stock_quantity self)), self).
Proof.
  intros Hq Hs. unfold reduce_stock, bind, get.
  destruct (Z.leb_spec qty 0); [lia |].
  destruct (Z.gtb_spec qty (_stock_quantity self)); [reflexivity | lia].
Qed.

Lemma reduce_stock_returns (self : Product) (qty : Z) :
  0 < qty -> qty <= _stock_quantity self ->
  reduce_stock utcnow qty self
    = (Returns (_stock_quantity self - qty),
       set_updated_at utcnow
         (set_stock_quantity (_stock_quantity self - qty) self)).
Proof.
  intros Hq Hs. unfold reduce_stock, bind, get.
  destruct (Z.leb_spec qty 0); [lia |].
  destruct (Z.gtb_spec qty (_stock_quantity self)); [lia | reflexivity].
Qed.

(** Whatever the outcome, a call of a stock primitive leaves a product
    within its bounds. *)
Lemma add_stock_keeps_invariant (self : Product) (qty : Z) :
  stock_invariant self -> stock_invariant (snd (add_stock utcnow qty self)).
Proof.
  intros Hinv.
  destruct (Z_le_gt_dec qty 0) as [Hq | Hq].
  { now rewrite add_stock_raises_nonpositive. }
  destruct (Z_le_gt_dec (_stock_quantity self + qty) (_maximum_stock self)).
  - rewrite add_stock_returns by lia.
    unfold stock_invariant in *; cbn; lia.
  - now rewrite add_stock_raises_over_capacity by lia.
Qed.

Lemma reduce_stock_keeps_invariant (self : Product) (qty : Z) :
  stock_invariant self -> stock_invariant (snd (reduce_stock utcnow qty self)).
Proof.
  intros Hinv.
  destruct (Z_le_gt_dec qty 0) as [Hq | Hq].
  { now rewrite reduce_stock_raises_nonpositive. }
  destruct (Z_le_gt_dec qty (_stock_quantity self)).
  - rewrite reduce_stock_returns by lia.
    unfold stock_invariant in *; cbn; lia.
  - now rewrite reduce_stock_raises_insufficient by lia.
Qed.

Lemma perform_keeps_invariant (c : stock_call) (self : Product) :
  stock_invariant self -> stock_invariant (snd (perform utcnow c self)).
Proof.
  intros Hinv. destruct c as [q | q]; unfold perform, bind.
  - pose proof (add_stock_keeps_invariant self q Hinv) as H.
    destruct (add_stock utcnow q self) as [[n | e] self']; exact H.
  - pose proof (reduce_stock_keeps_invariant self q Hinv) as H.
    destruct (reduce_stock utcnow q self) as [[n | e] self']; exact H.
Qed.

Lemma script_keeps_invariant (calls : list stock_call) :
  forall self : Product,
    stock_invariant self ->
    stock_invariant (snd (for_each (perform utcnow) calls self)).
Proof.
  induction calls as [| c calls IH]; intros self Hinv; [exact Hinv |].
  cbn [for_each]. unfold bind.
  pose proof (perform_keeps_invariant c self Hinv) as Hc.
  destruct (perform utcnow c self) as [[[] | e] self1]; cbn in Hc.
  - apply IH, Hc.
  - exact Hc.
Qed.

(** C1. A product whose stock lies between zero and its maximum keeps it
    there: each successful [add_stock] and each successful [reduce_stock]
    preserves the bounds, and so does every script of such calls that
    runs to its end. *)
Theorem stock_invariant_preserved (self : Product) :
  stock_invariant self ->
  (forall qty n self',
      add_stock utcnow qty self = (Returns n, self') -> stock_invariant self')
  /\ (forall qty n self',
      reduce_stock utcnow qty self = (Returns n, self') ->
      stock_invariant self')
  /\ (forall calls self',
      for_each (perform utcnow) calls self = (Returns tt, self') ->
      stock_invariant self').
Proof.
  intros Hinv. split; [| split].
  - intros qty n self' H.
    pose proof (add_stock_keeps_invariant self qty Hinv) as K.
    rewrite H in K. exact K.
  - intros qty n self' H.
    pose proof (reduce_stock_keeps_invariant self qty Hinv) as K.
    rewrite H in K. exact K.
  - intros calls self' H.
    pose proof (script_keeps_invariant calls self Hinv) as K.
    rewrite H in K. exact K.
Qed.

(** C3. [add_stock(qty)] raises the invalid-argument error when
    [qty <= 0]; failing that, it raises the capacity error when the stock
    plus [qty] exceeds the maximum; otherwise it stores the sum and returns
    it.  On either error the product is left as it was. *)
Theorem add_stock_spec (self : Product) (qty : Z) :
  (qty <= 0 ->
   add_stock utcnow qty self = (Raises InvalidArgument_add, self))
  /\ (0 < qty -> _stock_quantity self + qty > _maximum_stock self ->
      add_stock utcnow qty self
        = (Raises (CapacityExceeded qty (_maximum_stock self)), self))
  /\ (0 < qty -> _stock_quantity self + qty <= _maximum_stock self ->
      exists self',
        add_stock utcnow qty self
          = (Returns (_stock_quantity self + qty), self')
        /\ _stock_quantity self' = _stock_quantity self + qty
        /\ _minimum_stock self' = _minimum_stock self
        /\ _maximum_stock self' = _maximum_stock self).
Proof.
  split; [| split].
  - apply add_stock_raises_nonpositive.
  - apply add_stock_raises_over_capacity.
  - intros Hq Hcap. eexists. split.
    + apply add_stock_returns; assumption.
    + cbn. auto.
Qed.

(** C4. [reduce_stock(qty)] raises the invalid-argument error when
    [qty <= 0], so for [0] and for [-1]; failing that, it raises the
    insufficient-stock error when [qty] exceeds the stock; otherwise it
    stores the difference and returns it.  On either error the product is
    left as it was. *)
Theorem reduce_stock_spec (self : Product) (qty : Z) :
  (qty <= 0 ->
   reduce_stock utcnow qty self = (Raises InvalidArgument_reduce, self))
  /\ reduce_stock utcnow 0 self = (Raises InvalidArgument_reduce, self)
  /\ reduce_stock utcnow (-1) self = (Raises InvalidArgument_reduce, self)
  /\ (0 < qty -> qty > _stock_quantity self ->
      reduce_stock utcnow qty self
        = (Raises (InsufficientStock qty (_stock_quantity self)), self))
  /\ (0 < qty -> qty <= _stock_quantity self ->
      exists self',
        reduce_stock utcnow qty self
          = (Returns (_stock_quantity self - qty), self')
        /\ _stock_quantity self' = _stock_quantity self - qty
        /\ _minimum_stock self' = _minimum_stock self
        /\ _maximum_stock self' = _maximum_stock self).
Proof.
  split; [| split; [| split; [| split]]].
  - apply reduce_stock_raises_nonpositive.
  - reflexivity.
  - reflexivity.
  - apply reduce_stock_raises_insufficient.
  - intros Hq Hs. eexists. split.
    + apply reduce_stock_returns; assumption.
    + cbn. auto.
Qed.

End Ledger.

(** ** Transactions *)

Lemma append_if_nil (cond : bool) (msg : string) (errors : list string) :
  append_if cond msg errors = [] -> cond = false /\ errors = [].
Proof.
  unfold append_if. destruct cond; intros H; [| now split].
  destruct errors; discriminate H.
Qed.

Lemma append_if_false (msg : string) (errors : list string) :
  append_if false msg errors = errors.
Proof. reflexivity. Qed.

Lemma In_append_if (cond : bool) (msg m : string) (errors : list string) :
  In m (append_if cond msg errors) <-> In m errors \/ (cond = true /\ m = msg).
Proof.
  unfold append_if. destruct cond.
  - rewrite in_app_iff. cbn. intuition congruence.
  - intuition congruence.
Qed.

Lemma set_product_same (self : StockTransaction) (p : Product) :
  product self = Some p -> set_product (Some p) self = self.
Proof. destruct self; cbn; intros ->; reflexivity. Qed.

Section Transactions.

Variable utcnow : datetime.

(** What the apply step of a transaction that passed validation does when
    it returns: nothing without a bound product, and otherwise it moves the
    stock of the bound product by the signed quantity. *)
Lemma apply_transaction_returns (self self' : StockTransaction) :
  validate self = [] ->
  _apply_transaction utcnow self = (Returns tt, self') ->
  match product self with
  | None => self' = self
  | Some p =>
      exists p',
        self' = set_product (Some p') self
        /\ _stock_quantity p' = _stock_quantity p + quantity self
        /\ _minimum_stock p' = _minimum_stock p
        /\ _maximum_stock p' = _maximum_stock p
  end.
Proof.
  destruct self as [cls ty ref q uc notes pb ip pid upd prod s1 s2 s3].
  unfold validate, _apply_transaction, bind, get; cbn.
  destruct cls; cbn.
  - discriminate.
  - unfold StockInTransaction_validate, StockInTransaction_apply_transaction,
      bind, get, quantity; cbn.
    intros Hv. apply append_if_nil in Hv as [_ Hv].
    apply append_if_nil in Hv as [Hq _].
    destruct prod as [p |]; cbn; [| now intros [= <-]].
    unfold on_product.
    destruct (Z_le_gt_dec (_stock_quantity p + q) (_maximum_stock p)).
    + rewrite add_stock_returns by lia. cbn. intros [= <-].
      eexists; split; [reflexivity |]. cbn. auto.
    + rewrite add_stock_raises_over_capacity by lia. discriminate.
  - unfold StockOutTransaction_validate, StockOutTransaction_apply_transaction,
      bind, get, quantity; cbn.
    destruct prod as [p |]; cbn.
    2:{ intros _ [= <-]. reflexivity. }
    intros Hv. apply append_if_nil in Hv as [_ Hv].
    apply append_if_nil in Hv as [Hq _].
    unfold on_product.
    destruct (Z_le_gt_dec (Z.abs q) (_stock_quantity p)).
    + rewrite reduce_stock_returns by lia. cbn. intros [= <-].
      eexists; split; [reflexivity |]. cbn. repeat split; lia.
    + rewrite reduce_stock_raises_insufficient by lia. discriminate.
  - unfold StockAdjustmentTransaction_validate,
      StockAdjustmentTransaction_apply_transaction, bind, get, quantity; cbn.
    destruct prod as [p |]; cbn.
    2:{ intros _ [= <-]. reflexivity. }
    intros Hv. apply append_if_nil in Hv as [_ Hv].
    apply append_if_nil in Hv as [Hq _].
    unfold on_product.
    destruct (Z.gtb_spec q 0).
    + destruct (Z_le_gt_dec (_stock_quantity p + q) (_maximum_stock p)).
      * rewrite add_stock_returns by lia. cbn. intros [= <-].
        eexists; split; [reflexivity |]. cbn. auto.
      * rewrite add_stock_raises_over_capacity by lia. discriminate.
    + destruct (Z_le_gt_dec (Z.abs q) (_stock_quantity p)).
      * rewrite reduce_stock_returns by lia. cbn. intros [= <-].
        eexists; split; [reflexivity |]. cbn. repeat split; lia.
      * rewrite reduce_stock_raises_insufficient by lia. discriminate.
Qed.

(** C2. Processing a transaction that is already processed raises the
    already-processed error and changes neither the transaction nor its
    bound product.  A call that returns was made on an unprocessed
    transaction, has moved the stock of the bound product by the signed
    quantity, and has marked the transaction processed, so that a second
    call raises. *)
Theorem process_transaction_once (self : StockTransaction) :
  (is_processed self = true ->
   process_transaction utcnow self = (Raises AlreadyProcessed, self))
  /\ (forall self',
      process_transaction utcnow self = (Returns tt, self') ->
      is_processed self = false
      /\ is_processed self' = true
      /\ match product self with
         | Some p =>
             exists p',
               product self' = Some p'
               /\ _stock_quantity p' = _stock_quantity p + quantity self
         | None => product self' = None
         end
      /\ process_transaction utcnow self'
         = (Raises AlreadyProcessed, self')).
Proof.
  split.
  - unfold is_processed, process_transaction, bind, get. now intros ->.
  - intros self'. unfold is_processed, process_transaction at 1, bind, get.
    destruct (_is_processed self) eqn:Hproc; [discriminate |].
    destruct (validate self) as [| msg errors] eqn:Hv; [| discriminate].
    destruct (_apply_transaction utcnow self) as [[[] | e] s1] eqn:Happ;
      [| discriminate].
    unfold modify. intros [= <-].
    pose proof (apply_transaction_returns self s1 Hv Happ) as Hs1.
    assert (Hdone :
      _is_processed (set__updated_at (Some utcnow) (set__is_processed true s1))
      = true) by (destruct s1; reflexivity).
    split; [reflexivity |]. split; [exact Hdone |]. split.
    + destruct (product self) as [p |] eqn:Hp.
      * destruct Hs1 as (p' & -> & Hstock & _).
        exists p'. split; [destruct self; reflexivity | exact Hstock].
      * subst s1. destruct self; cbn in *. exact Hp.
    + unfold process_transaction, bind, get. now rewrite Hdone.
Qed.

(** C10, as amended.  An unprocessed transaction of one of the three
    variants that has a product id but no bound product, and on which
    [validate] reports nothing, is processed without an error: no stock is
    touched and the transaction is marked processed. *)
Theorem process_transaction_without_product (self : StockTransaction) :
  __class__ self <> StockTransaction_class ->
  product self = None ->
  truthy_int (product_id self) = true ->
  is_processed self = false ->
  validate self = [] ->
  _apply_transaction utcnow self = (Returns tt, self)
  /\ exists self',
      process_transaction utcnow self = (Returns tt, self')
      /\ self' = set__updated_at (Some utcnow) (set__is_processed true self)
      /\ product self' = None
      /\ is_processed self' = true.
Proof.
  intros Hcls Hprod _ Hproc Hv.
  assert (Happ : _apply_transaction utcnow self = (Returns tt, self)).
  { unfold _apply_transaction, bind, get.
    destruct (__class__ self); [contradiction | | |].
    - unfold StockInTransaction_apply_transaction, bind, get.
      now rewrite Hprod.
    - unfold StockOutTransaction_apply_transaction, bind, get.
      now rewrite Hprod.
    - unfold StockAdjustmentTransaction_apply_transaction, bind, get.
      now rewrite Hprod. }
  split; [exact Happ |]. eexists. split; [| split; [reflexivity |]].
  - unfold process_transaction, bind, get. unfold is_processed in Hproc.
    rewrite Hproc, Hv, Happ. reflexivity.
  - destruct self; cbn in *. auto.
Qed.

(** C7. A stock-in transaction of quantity 20 with well-formed fields,
    bound to a product holding 100 of at most 100: [validate] reports
    nothing, the apply step raises the capacity error, and so does
    [process_transaction], which leaves the transaction unprocessed and
    the product at 100. *)
Theorem stock_in_over_capacity (self : StockTransaction) (p : Product) :
  __class__ self = StockInTransaction ->
  product self = Some p ->
  _stock_quantity p = 100 ->
  _maximum_stock p = 100 ->
  quantity self = 20 ->
  is_processed self = false ->
  3 <= len (strip (reference_number self)) ->
  (0 < unit_cost self)%Q ->
  truthy_int (product_id self) = true ->
  validate self = []
  /\ _apply_transaction utcnow self = (Raises (CapacityExceeded 20 100), self)
  /\ exists self',
      process_transaction utcnow self
        = (Raises (CapacityExceeded 20 100), self')
      /\ self' = self
      /\ is_processed self' = false
      /\ exists p', product self' = Some p' /\ _stock_quantity p' = 100.
Proof.
  intros Hcls Hprod Hstock Hmax Hq Hproc Href Hcost Hpid.
  assert (Hv : validate self = []).
  { unfold validate. rewrite Hcls.
    unfold StockInTransaction_validate, StockTransaction_validate.
    rewrite Hq, Hpid. cbn [negb].
    assert (Hlt : Qltb (unit_cost self) 0 = false).
    { unfold Qltb. apply negb_false_iff, Qle_bool_iff, Qlt_le_weak, Hcost. }
    assert (Hle : Qle_bool (unit_cost self) 0 = false).
    { apply not_true_is_false. intros H. apply Qle_bool_iff in H.
      exact (Qlt_not_le _ _ Hcost H). }
    assert (Heq : Qeq_bool (unit_cost self) 0 = false).
    { apply not_true_is_false. intros H. apply Qeq_bool_iff in H.
      rewrite H in Hcost. exact (Qlt_irrefl _ Hcost). }
    rewrite Hlt, Hle, Heq.
    assert (Hlen : (len (strip (reference_number self)) <? 3) = false)
      by (apply Z.ltb_ge, Href).
    assert (Htruthy : truthy_str (Some (reference_number self)) = true).
    { destruct (reference_number self); [| reflexivity].
      cbn in Href. lia. }
    rewrite Hlen, Htruthy. reflexivity. }
  assert (Happ :
    _apply_transaction utcnow self = (Raises (CapacityExceeded 20 100), self)).
  { unfold _apply_transaction, bind, get. rewrite Hcls.
    unfold StockInTransaction_apply_transaction, bind, get.
    rewrite Hprod, Hq. unfold on_product.
    rewrite add_stock_raises_over_capacity by lia.
    rewrite Hmax, (set_product_same self p Hprod). reflexivity. }
  split; [exact Hv |]. split; [exact Happ |].
  exists self. split; [| split; [reflexivity | split; [exact Hproc |]]].
  - unfold process_transaction, bind, get. unfold is_processed in Hproc.
    rewrite Hproc, Hv, Happ. reflexivity.
  - exists p. split; assumption.
Qed.

End Transactions.

(** ** Construction *)

(** A base initialiser that returns received a reference of three characters
    or more and a nonzero quantity, and has assigned every common field. *)
Lemma StockTransaction__init__returns
    (ref : option string) (pid : option Z) (q : Z) (cost : option Q)
    (notes pb : option string) (s0 s1 : StockTransaction) :
  StockTransaction__init__ ref pid q cost notes pb s0 = (Returns tt, s1) ->
  exists r,
    ref = Some r
    /\ 3 <= len (strip r)
    /\ q <> 0
    /\ s1 = set__is_processed false
              (set__processed_by (strip_or_None pb)
                 (set__notes (strip_or_None notes)
                    (set__unit_cost cost
                       (set__quantity q
                          (set_product_id pid
                             (set__reference_number (upper (strip r)) s0)))))).
Proof.
  unfold StockTransaction__init__, set_reference_number, set_quantity,
    set_unit_cost, set_notes, set_processed_by, bind, modify, raise.
  destruct ref as [r |]; [| discriminate].
  destruct (negb (truthy_str (Some r)) || (len (strip r) <? 3)) eqn:Href;
    [discriminate |].
  apply orb_false_elim in Href as [_ Hlen]. apply Z.ltb_ge in Hlen.
  destruct (Z.eqb_spec q 0) as [| Hq]; [discriminate |].
  destruct cost as [c |].
  - destruct (Qltb c 0); [discriminate |].
    intros [= <-]. exists r. auto.
  - intros [= <-]. exists r. auto.
Qed.

(** Reduces a goal about an object a constructor returned to one about the
    fields its initialiser assigned. *)
Ltac constructed :=
  unfold construct, StockInTransaction__init__, StockOutTransaction__init__,
    StockAdjustmentTransaction__init__, bind, modify;
  match goal with
  | |- context [StockTransaction__init__ ?r ?p ?q ?c ?n ?b ?s] =>
      let Hinit := fresh "Hinit" in
      destruct (StockTransaction__init__ r p q c n b s)
        as [[[] | ?] ?] eqn:Hinit; [| discriminate];
      apply StockTransaction__init__returns in Hinit
        as (?r & ?Hsome & ?Hlen & ?Hnonzero & ->);
      intros [= <-]
  end.


(** C6. A stock-out transaction constructed from a nonzero quantity [q]
    stores [- |q|]; once a product is bound to it, [validate] reports an
    insufficient-stock error exactly when the product holds less than
    [|q|]. *)
Theorem stock_out_quantity_and_availability
    (ref : option string) (pid : option Z) (q : Z)
    (cref notes pb : option string) (self : StockTransaction) :
  q <> 0 ->
  construct StockOutTransaction
    (StockOutTransaction__init__ ref pid q cref notes pb) = Returns self ->
  quantity self = - Z.abs q
  /\ forall p : Product,
      (exists msg,
          In msg (validate (set_product (Some p) self))
          /\ insufficient_stock_error msg = true)
      <-> _stock_quantity p < Z.abs q.
Proof.
  intros Hq. constructed.
  split; [reflexivity |].
  intros p.
  unfold set_product, validate; cbn [__class__].
  unfold StockOutTransaction_validate, StockTransaction_validate.
  unfold quantity; cbn [_quantity product].
  replace (Z.abs (- Z.abs q)) with (Z.abs q) by lia.
  split.
  - intros (msg & Hin & Hkind).
    rewrite !In_append_if in Hin. cbn [In] in Hin.
    destruct Hin as [[[[[[[] | [_ ->]] | [_ ->]] | [_ ->]] | [_ ->]] | [_ ->]]
                     | [Hav _]];
      try discriminate Hkind.
    unfold check_availability in Hav. apply negb_true_iff in Hav. lia.
  - intros Hlow. eexists. split.
    + apply In_append_if. right. split; [| reflexivity].
      unfold check_availability. apply negb_true_iff. lia.
    + reflexivity.
Qed.

(** ** The factory *)

(** What a base initialiser needs to return. *)
Lemma StockTransaction__init__accepts
    (r : string) (pid : option Z) (q : Z) (cost : option Q)
    (notes pb : option string) (s0 : StockTransaction) :
  3 <= len (strip r) -> q <> 0 ->
  match cost with Some c => Qltb c 0 = false | None => True end ->
  exists s1,
    StockTransaction__init__ (Some r) pid q cost notes pb s0 = (Returns tt, s1).
Proof.
  intros Hlen Hq Hcost.
  unfold StockTransaction__init__, set_reference_number, set_quantity,
    set_unit_cost, set_notes, set_processed_by, bind, modify, raise.
  assert (Href : negb (truthy_str (Some r)) || (len (strip r) <? 3) = false).
  { destruct (Z.ltb_spec (len (strip r)) 3); [lia |].
    destruct r; [cbn in Hlen; lia | reflexivity]. }
  rewrite Href. destruct (Z.eqb_spec q 0); [contradiction |].
  destruct cost as [c |]; [rewrite Hcost |]; eexists; reflexivity.
Qed.

(** The object a constructor leaves when the base initialiser accepts its
    arguments. *)
Lemma StockTransaction__init__result
    (r : string) (pid : option Z) (q : Z) (cost : option Q)
    (notes pb : option string) (s0 : StockTransaction) :
  3 <= len (strip r) -> q <> 0 ->
  match cost with Some c => (0 <= c)%Q | None => True end ->
  StockTransaction__init__ (Some r) pid q cost notes pb s0
  = (Returns tt,
     set__is_processed false
       (set__processed_by (strip_or_None pb)
          (set__notes (strip_or_None notes)
             (set__unit_cost cost
                (set__quantity q
                   (set_product_id pid
                      (set__reference_number (upper (strip r)) s0))))))).
Proof.
  intros Hlen Hq Hcost.
  assert (Hcost' : match cost with
                   | Some c => Qltb c 0 = false
                   | None => True
                   end).
  { destruct cost as [c |]; [| exact I].
    unfold Qltb. apply negb_false_iff, Qle_bool_iff, Hcost. }
  destruct (StockTransaction__init__accepts r pid q cost notes pb s0
              Hlen Hq Hcost') as (s1 & Hinit).
  rewrite Hinit.
  apply StockTransaction__init__returns in Hinit
    as (r' & [= <-] & _ & _ & ->).
  reflexivity.
Qed.

(** C9. [create_transaction] raises the unsupported-type error, and
    constructs nothing, for every tag other than the members [STOCK_IN],
    [STOCK_OUT] and [ADJUSTMENT], so for [TRANSFER] and [RETURN].  For each
    of the three it constructs the matching variant: what it returns is an
    object of the matching class carrying that tag, and, given the keywords
    of that class with a reference of three characters or more after
    stripping, a nonzero quantity and no negative unit cost, it returns the
    object that class builds from them, unprocessed and not yet bound to a
    product: for a stock-in the quantity and the unit cost as given, for a
    stock-out the quantity as [- |q|] and no unit cost, for an adjustment
    the quantity as given and no unit cost. *)
Theorem create_transaction_dispatch (transaction_type : tag) (kw : kwargs) :
  (transaction_type <> Member STOCK_IN ->
   transaction_type <> Member STOCK_OUT ->
   transaction_type <> Member ADJUSTMENT ->
   create_transaction transaction_type kw
     = Raises (UnsupportedType transaction_type))
  /\ create_transaction (Member TRANSFER) kw
     = Raises (UnsupportedType (Member TRANSFER))
  /\ create_transaction (Member RETURN) kw
     = Raises (UnsupportedType (Member RETURN))
  /\ (forall self,
        create_transaction (Member STOCK_IN) kw = Returns self ->
        __class__ self = StockInTransaction
        /\ stock_transaction.transaction_type self = Some STOCK_IN)
  /\ (forall self,
        create_transaction (Member STOCK_OUT) kw = Returns self ->
        __class__ self = StockOutTransaction
        /\ stock_transaction.transaction_type self = Some STOCK_OUT)
  /\ (forall self,
        create_transaction (Member ADJUSTMENT) kw = Returns self ->
        __class__ self = StockAdjustmentTransaction
        /\ stock_transaction.transaction_type self = Some ADJUSTMENT)
  /\ (forall (r : string) (pid : option Z) (q : Z) (cost : option Q)
             (sref notes pb : option (option string)),
        3 <= len (strip r) -> q <> 0 ->
        match cost with Some c => (0 <= c)%Q | None => True end ->
        create_transaction (Member STOCK_IN)
          (mk_kwargs (Some (Some r)) (Some pid) (Some q) None (Some cost)
             sref None None notes pb)
        = Returns
            (mkStockTransaction StockInTransaction (Some STOCK_IN)
               (upper (strip r)) q cost
               (strip_or_None (or_None notes)) (strip_or_None (or_None pb))
               false pid None None (or_None sref) None None))
  /\ (forall (r : string) (pid : option Z) (q : Z)
             (cref notes pb : option (option string)),
        3 <= len (strip r) -> q <> 0 ->
        create_transaction (Member STOCK_OUT)
          (mk_kwargs (Some (Some r)) (Some pid) (Some q) None None
             None cref None notes pb)
        = Returns
            (mkStockTransaction StockOutTransaction (Some STOCK_OUT)
               (upper (strip r)) (- Z.abs q) None
               (strip_or_None (or_None notes)) (strip_or_None (or_None pb))
               false pid None None None (or_None cref) None))
  /\ (forall (r : string) (pid : option Z) (q : Z)
             (reason notes pb : option (option string)),
        3 <= len (strip r) -> q <> 0 ->
        create_transaction (Member ADJUSTMENT)
          (mk_kwargs (Some (Some r)) (Some pid) None (Some q) None
             None None reason notes pb)
        = Returns
            (mkStockTransaction StockAdjustmentTransaction (Some ADJUSTMENT)
               (upper (strip r)) q None
               (strip_or_None (or_None notes)) (strip_or_None (or_None pb))
               false pid None None None None (or_None reason))).
Proof.
  split; [| split; [| split; [| split; [| split; [| split; [| split;
    [| split]]]]]]].
  - intros Hin Hout Hadj.
    destruct transaction_type as [[] | s]; try reflexivity; contradiction.
  - reflexivity.
  - reflexivity.
  - intros self. cbn [create_transaction]. unfold StockInTransaction_call.
    destruct (_ || _); [discriminate |].
    destruct (kw_reference_number kw) as [ref |]; [| discriminate].
    destruct (kw_product_id kw) as [pid |]; [| discriminate].
    destruct (kw_quantity kw) as [q |]; [| discriminate].
    destruct (kw_unit_cost kw) as [cost |]; [| discriminate].
    constructed. split; reflexivity.
  - intros self. cbn [create_transaction]. unfold StockOutTransaction_call.
    destruct (_ || _); [discriminate |].
    destruct (kw_reference_number kw) as [ref |]; [| discriminate].
    destruct (kw_product_id kw) as [pid |]; [| discriminate].
    destruct (kw_quantity kw) as [q |]; [| discriminate].
    constructed. split; reflexivity.
  - intros self. cbn [create_transaction].
    unfold StockAdjustmentTransaction_call.
    destruct (_ || _); [discriminate |].
    destruct (kw_reference_number kw) as [ref |]; [| discriminate].
    destruct (kw_product_id kw) as [pid |]; [| discriminate].
    destruct (kw_adjustment_quantity kw) as [q |]; [| discriminate].
    constructed. split; reflexivity.
  - intros r pid q cost sref notes pb Hlen Hq Hcost.
    cbn [create_transaction]. unfold StockInTransaction_call.
    cbn [kw_adjustment_quantity kw_customer_reference kw_reason
         kw_reference_number kw_product_id kw_quantity kw_unit_cost
         kw_supplier_reference kw_notes kw_processed_by passed orb].
    unfold construct, StockInTransaction__init__, bind, modify.
    rewrite (StockTransaction__init__result r pid q cost _ _ _ Hlen Hq Hcost).
    reflexivity.
  - intros r pid q cref notes pb Hlen Hq.
    cbn [create_transaction]. unfold StockOutTransaction_call.
    cbn [kw_adjustment_quantity kw_unit_cost kw_supplier_reference kw_reason
         kw_reference_number kw_product_id kw_quantity
         kw_customer_reference kw_notes kw_processed_by passed orb].
    unfold construct, StockOutTransaction__init__, bind, modify.
    assert (Hq' : - Z.abs q <> 0) by lia.
    rewrite (StockTransaction__init__result r pid (- Z.abs q) None _ _ _
               Hlen Hq' I).
    reflexivity.
  - intros r pid q reason notes pb Hlen Hq.
    cbn [create_transaction]. unfold StockAdjustmentTransaction_call.
    cbn [kw_quantity kw_unit_cost kw_supplier_reference
         kw_customer_reference kw_reference_number kw_product_id
         kw_adjustment_quantity kw_reason kw_notes kw_processed_by
         passed orb].
    unfold construct, StockAdjustmentTransaction__init__, bind, modify.
    rewrite (StockTransaction__init__result r pid q None _ _ _ Hlen Hq I).
    reflexivity.
Qed.

(** ** The stock route *)

Lemma same_stamp_refl (a : option datetime) :
  routes_product.same_stamp a a = true.
Proof. destruct a; cbn; [apply Z.eqb_refl | reflexivity]. Qed.

(** The commit that follows a direct assignment of the stock. *)
Lemma commit_after_set (utcnow : datetime) (row : Product) (q : Z) :
  routes_product.commit utcnow row (set_stock_quantity q row)
  = if q =? _stock_quantity row then
      (Returns tt, set_stock_quantity q row)
    else if routes_product.fits_integer_column q then
      (Returns tt, set_updated_at utcnow (set_stock_quantity q row))
    else (Raises OverflowError, set_stock_quantity q row).
Proof.
  unfold routes_product.commit, bind, get, modify, raise, ret. cbn.
  rewrite same_stamp_refl.
  destruct (q =? _stock_quantity row); cbn; [reflexivity |].
  destruct (routes_product.fits_integer_column q); reflexivity.
Qed.

(** The commit that follows [add_stock] or [reduce_stock], which stamp the
    product themselves. *)
Lemma commit_after_stamp (utcnow : datetime) (row : Product) (n : Z) :
  n <> _stock_quantity row ->
  routes_product.commit utcnow row
    (set_updated_at utcnow (set_stock_quantity n row))
  = if routes_product.fits_integer_column n then
      (Returns tt, set_updated_at utcnow (set_stock_quantity n row))
    else (Raises OverflowError,
          set_updated_at utcnow (set_stock_quantity n row)).
Proof.
  intros Hn. unfold routes_product.commit, bind, get, modify, raise, ret. cbn.
  destruct (Z.eqb_spec n (_stock_quantity row)); [contradiction |]. cbn.
  destruct (routes_product.fits_integer_column n); cbn; [| reflexivity].
  destruct (product._updated_at row) as [y |];
    [destruct (utcnow =? y) |]; reflexivity.
Qed.

(** C8, as amended.  The [set] operation of the stock route writes the
    quantity it is given without consulting [add_stock] or [reduce_stock]:
    for every [q] with [0 <= q < 2^63] it answers 200 and stores [q], also
    beyond the maximum, where the product then breaks its bounds.  A
    negative [q] is refused with 400.  From [2^63] on the commit fails on
    the range of the column: the route answers 500 and the stored product
    is unchanged. *)
Theorem set_stock_bypasses_bounds (utcnow : datetime) (p : Product) (q : Z) :
  let data := Some (routes_product.mk_request_json (Some "set") (Some q)) in
  (0 <= q < 2 ^ 63 ->
   exists p',
     routes_product.update_product_stock utcnow (Some p) data
     = (routes_product.success 200
          (routes_product.mk_stock_change "set" q (_stock_quantity p) q
             (get_stock_status p')),
        Some p')
     /\ _stock_quantity p' = q
     /\ _minimum_stock p' = _minimum_stock p
     /\ _maximum_stock p' = _maximum_stock p
     /\ (_maximum_stock p < q -> ~ stock_invariant p'))
  /\ (q < 0 ->
      routes_product.update_product_stock utcnow (Some p) data
        = (routes_product.failure 400 "Stock quantity cannot be negative",
           Some p))
  /\ (2 ^ 63 <= q -> _stock_quantity p < 2 ^ 63 ->
      routes_product.update_product_stock utcnow (Some p) data
        = (routes_product.failure_str 500 OverflowError, Some p)).
Proof.
  cbn zeta.
  unfold routes_product.update_product_stock,
    routes_product.update_product_stock_body.
  cbn [routes_product.operation routes_product.quantity truthy_str negb
       existsb String.eqb Ascii.eqb Bool.eqb orb andb].
  unfold bind, get, modify, ret. cbv beta iota.
  pose proof (commit_after_set utcnow p q) as Hcommit.
  split; [| split].
  - intros [Hq Hfit]. destruct (Z.ltb_spec q 0); [lia |].
    assert (Hcol : routes_product.fits_integer_column q = true).
    { unfold routes_product.fits_integer_column.
      apply andb_true_iff. split; [apply Z.leb_le | apply Z.ltb_lt]; lia. }
    rewrite Hcol in Hcommit.
    destruct (q =? _stock_quantity p); eexists;
      (split; [rewrite Hcommit; reflexivity |]); cbn; repeat split;
      unfold stock_invariant; cbn; lia.
  - intros Hq. destruct (Z.ltb_spec q 0); [reflexivity | lia].
  - intros Hq Hrow. destruct (Z.ltb_spec q 0); [lia |].
    destruct (Z.eqb_spec q (_stock_quantity p)); [lia |].
    assert (Hcol : routes_product.fits_integer_column q = false).
    { unfold routes_product.fits_integer_column.
      apply andb_false_iff. right. apply Z.ltb_ge. lia. }
    rewrite Hcol in Hcommit. rewrite Hcommit. reflexivity.
Qed.

(** * Instances *)

Lemma stock_invariant_preserved_witness :
  stock_invariant shelf_product
  /\ (add_stock 0 30 shelf_product = (Returns 80, mkProduct 80 10 200 (Some 0))
      /\ stock_invariant (mkProduct 80 10 200 (Some 0)))
  /\ (reduce_stock 0 50 shelf_product = (Returns 0, mkProduct 0 10 200 (Some 0))
      /\ stock_invariant (mkProduct 0 10 200 (Some 0)))
  /\ (for_each (perform 0)
        [call_add_stock 150; call_reduce_stock 200; call_add_stock 1]
        shelf_product
      = (Returns tt, mkProduct 1 10 200 (Some 0))
      /\ stock_invariant (mkProduct 1 10 200 (Some 0))).
Proof.
  assert (Hinv : stock_invariant shelf_product)
    by (unfold stock_invariant; cbn; lia).
  destruct (stock_invariant_preserved 0 shelf_product Hinv)
    as (Hadd & Hreduce & Hscript).
  split; [exact Hinv |]. split; [| split].
  - split; [reflexivity |]. exact (Hadd 30 80 _ eq_refl).
  - split; [reflexivity |]. exact (Hreduce 50 0 _ eq_refl).
  - split; [reflexivity |].
    exact (Hscript
             [call_add_stock 150; call_reduce_stock 200; call_add_stock 1]
             _ eq_refl).
Defined.

Lemma add_stock_spec_witness :
  add_stock 0 0 shelf_product = (Raises InvalidArgument_add, shelf_product)
  /\ add_stock 0 (-1) shelf_product
     = (Raises InvalidArgument_add, shelf_product)
  /\ add_stock 0 20 full_product
     = (Raises (CapacityExceeded 20 100), full_product)
  /\ exists self',
      add_stock 0 30 shelf_product = (Returns 80, self')
      /\ _stock_quantity self' = 80.
Proof.
  split; [| split; [| split]].
  - destruct (add_stock_spec 0 shelf_product 0) as (H & _).
    apply H. lia.
  - destruct (add_stock_spec 0 shelf_product (-1)) as (H & _).
    apply H. lia.
  - destruct (add_stock_spec 0 full_product 20) as (_ & H & _).
    apply H; cbn; lia.
  - destruct (add_stock_spec 0 shelf_product 30) as (_ & _ & H).
    assert (Hpos : 0 < 30) by lia.
    assert (Hfit : _stock_quantity shelf_product + 30
                   <= _maximum_stock shelf_product) by (cbn; lia).
    destruct (H Hpos Hfit) as (self' & Hret & Hq & _).
    exists self'. split; [exact Hret | exact Hq].
Defined.

Lemma reduce_stock_spec_witness :
  reduce_stock 0 (-7) shelf_product
    = (Raises InvalidArgument_reduce, shelf_product)
  /\ reduce_stock 0 51 shelf_product
     = (Raises (InsufficientStock 51 50), shelf_product)
  /\ exists self',
      reduce_stock 0 20 shelf_product = (Returns 30, self')
      /\ _stock_quantity self' = 30.
Proof.
  split; [| split].
  - destruct (reduce_stock_spec 0 shelf_product (-7)) as (H & _).
    apply H. lia.
  - destruct (reduce_stock_spec 0 shelf_product 51) as (_ & _ & _ & H & _).
    apply H; cbn; lia.
  - destruct (reduce_stock_spec 0 shelf_product 20) as (_ & _ & _ & _ & H).
    assert (Hpos : 0 < 20) by lia.
    assert (Hfit : 20 <= _stock_quantity shelf_product) by (cbn; lia).
    destruct (H Hpos Hfit) as (self' & Hret & Hq & _).
    exists self'. split; [exact Hret | exact Hq].
Defined.

Lemma process_transaction_once_witness :
  process_transaction 0 (stock_in_object 30 (Some shelf_product) true)
    = (Raises AlreadyProcessed, stock_in_object 30 (Some shelf_product) true)
  /\ let self' :=
       set__updated_at (Some 0)
         (stock_in_object 30 (Some (mkProduct 80 10 200 (Some 0))) true) in
     process_transaction 0 (stock_in_object 30 (Some shelf_product) false)
       = (Returns tt, self')
     /\ is_processed self' = true
     /\ (exists p', product self' = Some p' /\ _stock_quantity p' = 50 + 30)
     /\ process_transaction 0 self' = (Raises AlreadyProcessed, self').
Proof.
  split.
  - destruct (process_transaction_once 0
                (stock_in_object 30 (Some shelf_product) true)) as (H & _).
    apply H. reflexivity.
  - cbv zeta. split; [reflexivity |].
    destruct (process_transaction_once 0
                (stock_in_object 30 (Some shelf_product) false))
      as (_ & Hfirst).
    destruct (Hfirst _ eq_refl) as (_ & Hdone & Hstock & Hsecond).
    split; [exact Hdone |]. split; [exact Hstock | exact Hsecond].
Defined.

Lemma process_transaction_without_product_witness :
  process_transaction 0 (stock_in_object 30 None false)
    = (Returns tt, set__updated_at (Some 0) (stock_in_object 30 None true))
  /\ process_transaction 0 (stock_out_object None)
     = (Returns tt,
        set__updated_at (Some 0)
          (set__is_processed true (stock_out_object None))).
Proof.
  split.
  - destruct (process_transaction_without_product 0
                (stock_in_object 30 None false))
      as (_ & self' & Hrun & -> & _);
      [discriminate | reflexivity | reflexivity | reflexivity | reflexivity |].
    exact Hrun.
  - destruct (process_transaction_without_product 0 (stock_out_object None))
      as (_ & self' & Hrun & -> & _);
      [discriminate | reflexivity | reflexivity | reflexivity | reflexivity |].
    exact Hrun.
Defined.

(** C10, the claim as it was stated fails: a stock-in transaction built
    from a negative quantity has a product id and no bound product, and
    processing it raises the validation error; and a transaction that went
    through processing without a product raises when processed again. *)
Lemma process_transaction_without_product_raises :
  (exists self,
      construct StockInTransaction
        (StockInTransaction__init__ (Some "SI-002") (Some 7) (-5)
           (Some (5 # 2)%Q) None None None) = Returns self
      /\ product self = None
      /\ truthy_int (product_id self) = true
      /\ process_transaction 0 self
         = (Raises (ValidationFailed ["Stock in quantity must be positive"]),
            self)
      /\ is_processed self = false)
  /\ (let self := stock_in_object 30 None true in
      product self = None
      /\ truthy_int (product_id self) = true
      /\ process_transaction 0 self = (Raises AlreadyProcessed, self)).
Proof.
  split.
  - eexists. split; [reflexivity |]. repeat split.
  - cbv zeta. repeat split.
Qed.

Lemma stock_in_over_capacity_witness :
  let self := stock_in_object 20 (Some full_product) false in
  validate self = []
  /\ process_transaction 0 self = (Raises (CapacityExceeded 20 100), self)
  /\ is_processed self = false
  /\ product self = Some full_product.
Proof.
  cbv zeta.
  destruct (stock_in_over_capacity 0
              (stock_in_object 20 (Some full_product) false) full_product)
    as (Hv & _ & self' & Hrun & -> & Hproc & _);
    try reflexivity.
  - cbn. lia.
  - split; [exact Hv |]. split; [exact Hrun |]. split; [exact Hproc |].
    reflexivity.
Defined.



Lemma stock_out_quantity_and_availability_witness :
  exists self,
    create_transaction (Member STOCK_OUT) (stock_out_kwargs 5) = Returns self
    /\ quantity self = -5
    /\ (exists msg,
           In msg (validate (set_product (Some (mkProduct 4 0 100 None)) self))
           /\ insufficient_stock_error msg = true)
    /\ ~ (exists msg,
             In msg (validate (set_product (Some (mkProduct 5 0 100 None)) self))
             /\ insufficient_stock_error msg = true).
Proof.
  eexists. split; [reflexivity |].
  destruct (stock_out_quantity_and_availability (Some "so-001") (Some 7) 5
              None None None _ ltac:(discriminate) eq_refl) as (Hq & Hv).
  split; [exact Hq |]. split.
  - apply (Hv (mkProduct 4 0 100 None)). cbn. lia.
  - intros H. apply (Hv (mkProduct 5 0 100 None)) in H. cbn in H. lia.
Defined.

Lemma set_stock_bypasses_bounds_witness :
  routes_product.update_product_stock 0 (Some shelf_product)
    (Some (routes_product.mk_request_json (Some "set") (Some 500)))
    = (routes_product.success 200
         (routes_product.mk_stock_change "set" 500 50 500 "OVERSTOCK"),
       Some (mkProduct 500 10 200 (Some 0)))
  /\ ~ stock_invariant (mkProduct 500 10 200 (Some 0))
  /\ routes_product.update_product_stock 0 (Some shelf_product)
       (Some (routes_product.mk_request_json (Some "set") (Some (-1))))
     = (routes_product.failure 400 "Stock quantity cannot be negative",
        Some shelf_product)
  /\ routes_product.update_product_stock 0 (Some shelf_product)
       (Some (routes_product.mk_request_json (Some "set") (Some (2 ^ 63))))
     = (routes_product.failure_str 500 OverflowError, Some shelf_product).
Proof.
  assert (H500 : 0 <= 500 < 2 ^ 63) by lia.
  assert (Hmax : _maximum_stock shelf_product < 500) by (cbn; lia).
  assert (Hneg : -1 < 0) by lia.
  assert (Hbig : 2 ^ 63 <= 2 ^ 63) by lia.
  assert (Hrow : _stock_quantity shelf_product < 2 ^ 63) by (cbn; lia).
  destruct (set_stock_bypasses_bounds 0 shelf_product 500) as (Hset & _ & _).
  destruct (set_stock_bypasses_bounds 0 shelf_product (-1)) as (_ & Hrefuse & _).
  destruct (set_stock_bypasses_bounds 0 shelf_product (2 ^ 63))
    as (_ & _ & Hover).
  destruct (Hset H500) as (p' & Hrun & _ & _ & _ & Hbroken).
  split; [reflexivity |]. split; [| split].
  - assert (Hp' : p' = mkProduct 500 10 200 (Some 0)).
    { assert (Hsame :
        routes_product.update_product_stock 0 (Some shelf_product)
          (Some (routes_product.mk_request_json (Some "set") (Some 500)))
        = (routes_product.success 200
             (routes_product.mk_stock_change "set" 500 50 500 "OVERSTOCK"),
           Some (mkProduct 500 10 200 (Some 0)))) by reflexivity.
      rewrite Hrun in Hsame. now injection Hsame as _ ->. }
    rewrite <- Hp'. exact (Hbroken Hmax).
  - exact (Hrefuse Hneg).
  - exact (Hover Hbig Hrow).
Defined.

(** C8, the claim as it was stated fails: asked to set the stock of a
    product to [2^63], which is not negative, the route answers 500 and the
    product keeps the stock it had. *)
Lemma set_stock_beyond_column_range :
  routes_product.update_product_stock 0 (Some shelf_product)
    (Some (routes_product.mk_request_json (Some "set") (Some (2 ^ 63))))
  = (routes_product.failure_str 500 OverflowError, Some shelf_product)
  /\ 0 <= 2 ^ 63
  /\ _stock_quantity shelf_product = 50.
Proof. repeat split. lia. Qed.

Lemma create_transaction_dispatch_witness :
  create_transaction (Text "TRANSFER") no_kwargs
    = Raises (ValueError "Unsupported transaction type: TRANSFER")
  /\ create_transaction (Member RETURN) (stock_in_kwargs 30)
     = Raises (ValueError "Unsupported transaction type: TransactionType.RETURN")
  /\ create_transaction (Member STOCK_IN) (stock_in_kwargs 30)
     = Returns
         (mkStockTransaction StockInTransaction (Some STOCK_IN) "SI-001" 30
            (Some (5 # 2)%Q) None None false (Some 7) None None
            None None None)
  /\ create_transaction (Member STOCK_OUT) (stock_out_kwargs 5)
     = Returns
         (mkStockTransaction StockOutTransaction (Some STOCK_OUT) "SO-001"
            (-5) None None None false (Some 7) None None None None None)
  /\ create_transaction (Member ADJUSTMENT) (adjustment_kwargs (-2))
     = Returns
         (mkStockTransaction StockAdjustmentTransaction (Some ADJUSTMENT)
            "ADJ-001" (-2) None None None false (Some 7) None None
            None None None)
  /\ __class__
       (mkStockTransaction StockInTransaction (Some STOCK_IN) "SI-001" 30
          (Some (5 # 2)%Q) None None false (Some 7) None None
          None None None)
     = StockInTransaction.
Proof.
  destruct (create_transaction_dispatch (Text "TRANSFER") no_kwargs)
    as (Hother & _).
  destruct (create_transaction_dispatch (Member RETURN) (stock_in_kwargs 30))
    as (Hreturn & _ & _ & Hclass & _ & _ & Hin & Hout & Hadj).
  assert (H3 : 3 <= len (strip " si-001 ")) by (cbn; lia).
  assert (H3' : 3 <= len (strip "so-001")) by (cbn; lia).
  assert (H3'' : 3 <= len (strip "adj-001")) by (cbn; lia).
  assert (H30 : 30 <> 0) by lia.
  assert (H5 : 5 <> 0) by lia.
  assert (H2 : -2 <> 0) by lia.
  assert (Hcost : (0 <= 5 # 2)%Q) by (unfold Qle; cbn; lia).
  split; [apply Hother; discriminate |].
  split; [apply Hreturn; discriminate |].
  split; [exact (Hin " si-001 " (Some 7) 30 (Some (5 # 2)%Q) None None None
                   H3 H30 Hcost) |].
  split; [exact (Hout "so-001" (Some 7) 5 None None None H3' H5) |].
  split; [exact (Hadj "adj-001" (Some 7) (-2) None None None H3'' H2) |].
  exact (proj1 (Hclass _ (Hin " si-001 " (Some 7) 30 (Some (5 # 2)%Q)
                            None None None H3 H30 Hcost))).
Defined.


(** * Further properties *)

(** ** The stock ledger, continued *)

Section LedgerLaws.

Variable utcnow : datetime.

Lemma add_stock_returns_inv (self self' : Product) (qty n : Z) :
  add_stock utcnow qty self = (Returns n, self') ->
  0 < qty
  /\ _stock_quantity self + qty <= _maximum_stock self
  /\ n = _stock_quantity self + qty
  /\ self' = set_updated_at utcnow
               (set_stock_quantity (_stock_quantity self + qty) self).
Proof.
  destruct (Z_le_gt_dec qty 0) as [Hq | Hq].
  { rewrite add_stock_raises_nonpositive by assumption. discriminate. }
  destruct (Z_le_gt_dec (_stock_quantity self + qty) (_maximum_stock self)).
  - rewrite add_stock_returns by lia. intros [= <- <-]. repeat split; lia.
  - rewrite add_stock_raises_over_capacity by lia. discriminate.
Qed.

Lemma reduce_stock_returns_inv (self self' : Product) (qty n : Z) :
  reduce_stock utcnow qty self = (Returns n, self') ->
  0 < qty
  /\ qty <= _stock_quantity self
  /\ n = _stock_quantity self - qty
  /\ self' = set_updated_at utcnow
               (set_stock_quantity (_stock_quantity self - qty) self).
Proof.
  destruct (Z_le_gt_dec qty 0) as [Hq | Hq].
  { rewrite reduce_stock_raises_nonpositive by assumption. discriminate. }
  destruct (Z_le_gt_dec qty (_stock_quantity self)).
  - rewrite reduce_stock_returns by lia. intros [= <- <-]. repeat split; lia.
  - rewrite reduce_stock_raises_insufficient by lia. discriminate.
Qed.

Lemma add_stock_raises_unchanged (self self' : Product) (qty : Z) (e : exception) :
  add_stock utcnow qty self = (Raises e, self') -> self' = self.
Proof.
  destruct (Z_le_gt_dec qty 0) as [Hq | Hq].
  { rewrite add_stock_raises_nonpositive by assumption. now intros [= _ <-]. }
  destruct (Z_le_gt_dec (_stock_quantity self + qty) (_maximum_stock self)).
  - rewrite add_stock_returns by lia. discriminate.
  - rewrite add_stock_raises_over_capacity by lia. now intros [= _ <-].
Qed.

Lemma reduce_stock_raises_unchanged (self self' : Product) (qty : Z)
    (e : exception) :
  reduce_stock utcnow qty self = (Raises e, self') -> self' = self.
Proof.
  destruct (Z_le_gt_dec qty 0) as [Hq | Hq].
  { rewrite reduce_stock_raises_nonpositive by assumption. now intros [= _ <-]. }
  destruct (Z_le_gt_dec qty (_stock_quantity self)).
  - rewrite reduce_stock_returns by lia. discriminate.
  - rewrite reduce_stock_raises_insufficient by lia. now intros [= _ <-].
Qed.

(** X1. Taking out what was just put in restores the stock: after a
    successful [add_stock(qty)] on a product whose stock is not negative,
    [reduce_stock(qty)] succeeds and returns the stock the product started
    with; the limits are untouched. *)
Theorem add_then_reduce_round_trip (self self1 : Product) (qty n : Z) :
  0 <= _stock_quantity self ->
  add_stock utcnow qty self = (Returns n, self1) ->
  exists self2,
    reduce_stock utcnow qty self1 = (Returns (_stock_quantity self), self2)
    /\ _stock_quantity self2 = _stock_quantity self
    /\ _minimum_stock self2 = _minimum_stock self
    /\ _maximum_stock self2 = _maximum_stock self.
Proof.
  intros Hstock Hadd.
  apply add_stock_returns_inv in Hadd as (Hq & Hfit & -> & ->).
  eexists. split.
  - rewrite reduce_stock_returns by (cbn; lia). cbn.
    replace (_stock_quantity self + qty - qty) with (_stock_quantity self)
      by lia.
    reflexivity.
  - cbn. auto.
Qed.

(** X2. Putting back what was just taken out restores the stock: after a
    successful [reduce_stock(qty)] on a product whose stock does not exceed
    its maximum, [add_stock(qty)] succeeds and returns the stock the product
    started with. *)
Theorem reduce_then_add_round_trip (self self1 : Product) (qty n : Z) :
  _stock_quantity self <= _maximum_stock self ->
  reduce_stock utcnow qty self = (Returns n, self1) ->
  exists self2,
    add_stock utcnow qty self1 = (Returns (_stock_quantity self), self2)
    /\ _stock_quantity self2 = _stock_quantity self
    /\ _minimum_stock self2 = _minimum_stock self
    /\ _maximum_stock self2 = _maximum_stock self.
Proof.
  intros Hmax Hred.
  apply reduce_stock_returns_inv in Hred as (Hq & Hfit & -> & ->).
  eexists. split.
  - rewrite add_stock_returns by (cbn; lia). cbn.
    replace (_stock_quantity self - qty + qty) with (_stock_quantity self)
      by lia.
    reflexivity.
  - cbn. auto.
Qed.

(** X3. Two deliveries in a row are one delivery of the sum: for positive
    [a] and [b], [add_stock(a)] followed by [add_stock(b)] returns exactly
    when [add_stock(a + b)] does, with the same result and the same
    product. *)
Theorem add_stock_twice (self self' : Product) (a b n : Z) :
  0 < a -> 0 < b ->
  (add_stock utcnow a ;; add_stock utcnow b) self = (Returns n, self')
  <-> add_stock utcnow (a + b) self = (Returns n, self').
Proof.
  intros Ha Hb. unfold bind at 1. split.
  - destruct (add_stock utcnow a self) as [[m | e] self1] eqn:Hfirst;
      [| discriminate].
    apply add_stock_returns_inv in Hfirst as (_ & Hfit1 & -> & ->).
    intros Hsecond.
    apply add_stock_returns_inv in Hsecond as (_ & Hfit2 & -> & ->).
    cbn in *. rewrite add_stock_returns by lia.
    unfold set_updated_at, set_stock_quantity; cbn.
    now rewrite Z.add_assoc.
  - intros Hsum.
    apply add_stock_returns_inv in Hsum as (_ & Hfit & -> & ->).
    rewrite add_stock_returns by lia.
    rewrite add_stock_returns by (cbn; lia).
    unfold set_updated_at, set_stock_quantity; cbn.
    now rewrite Z.add_assoc.
Qed.

(** X4. The availability check and the reduction agree: for a positive
    [qty], [reduce_stock(qty)] returns exactly when
    [check_availability(qty)] holds. *)
Theorem reduce_stock_iff_available (self : Product) (qty : Z) :
  0 < qty ->
  (exists n self', reduce_stock utcnow qty self = (Returns n, self'))
  <-> check_availability self qty = true.
Proof.
  intros Hq. unfold check_availability. split.
  - intros (n & self' & Hred).
    apply reduce_stock_returns_inv in Hred as (_ & Hfit & _). lia.
  - intros Hav. do 2 eexists. apply reduce_stock_returns; lia.
Qed.

(** X5. The status follows the stock: on a product whose stock is not
    negative a successful [add_stock] never leaves the status
    [OUT_OF_STOCK], and a successful [reduce_stock] of the whole stock
    always does. *)
Theorem stock_status_after_primitives (self self' : Product) (qty n : Z) :
  0 <= _stock_quantity self ->
  (add_stock utcnow qty self = (Returns n, self') ->
   get_stock_status self' <> "OUT_OF_STOCK")
  /\ (reduce_stock utcnow qty self = (Returns n, self') ->
      qty = _stock_quantity self ->
      get_stock_status self' = "OUT_OF_STOCK").
Proof.
  intros Hstock. split.
  - intros Hadd. apply add_stock_returns_inv in Hadd as (Hq & _ & _ & ->).
    unfold get_stock_status; cbn.
    destruct (Z.eqb_spec (_stock_quantity self + qty) 0); [lia |].
    destruct (_ <=? _); [discriminate |].
    destruct (_ >=? _); discriminate.
  - intros Hred ->.
    apply reduce_stock_returns_inv in Hred as (_ & _ & _ & ->).
    unfold get_stock_status; cbn. now rewrite Z.sub_diag.
Qed.

End LedgerLaws.

(** X6. [set_stock_limits] accepts exactly the pairs with
    [0 <= minimum <= maximum]: it then stores both and leaves the stock
    alone, and otherwise raises and changes nothing.  It never looks at the
    stock, so a maximum below the current stock is accepted and leaves the
    product over its maximum. *)
Theorem set_stock_limits_spec (self : Product) (minimum maximum : Z) :
  (0 <= minimum <= maximum ->
   set_stock_limits minimum maximum self
     = (Returns tt, set_maximum_stock maximum (set_minimum_stock minimum self)))
  /\ (~ 0 <= minimum <= maximum ->
      exists msg,
        set_stock_limits minimum maximum self = (Raises (ValueError msg), self))
  /\ (0 <= minimum <= maximum -> maximum < _stock_quantity self ->
      exists self',
        set_stock_limits minimum maximum self = (Returns tt, self')
        /\ _stock_quantity self' = _stock_quantity self
        /\ ~ stock_invariant self').
Proof.
  unfold set_stock_limits, bind, modify, raise.
  split; [| split].
  - intros [Hmin Hmax].
    destruct (Z.ltb_spec minimum 0); [lia |].
    destruct (Z.ltb_spec maximum minimum); [lia | reflexivity].
  - intros Hbad.
    destruct (Z.ltb_spec minimum 0); [eexists; reflexivity |].
    destruct (Z.ltb_spec maximum minimum); [eexists; reflexivity | lia].
  - intros [Hmin Hmax] Hover.
    destruct (Z.ltb_spec minimum 0); [lia |].
    destruct (Z.ltb_spec maximum minimum); [lia |].
    eexists. split; [reflexivity |]. split; [reflexivity |].
    unfold stock_invariant; cbn. lia.
Qed.

(** ** Processing, continued *)

Section ProcessingLaws.

Variable utcnow : datetime.

Lemma class_base_or_variant (self : StockTransaction) :
  __class__ self = StockTransaction_class
  \/ __class__ self <> StockTransaction_class.
Proof. destruct (__class__ self); [now left | right .. ]; discriminate. Qed.

(** Whatever the class, a transaction that passes [validate] passes the
    common checks, so its quantity is not zero. *)
Lemma validate_nil_common (self : StockTransaction) :
  validate self = [] -> StockTransaction_validate self = [].
Proof.
  unfold validate. destruct (__class__ self); [auto | | |].
  - unfold StockInTransaction_validate. intros Hv.
    apply append_if_nil in Hv as [_ Hv]. now apply append_if_nil in Hv.
  - unfold StockOutTransaction_validate. intros Hv.
    destruct (product self);
      [apply append_if_nil in Hv as [_ Hv] |]; now apply append_if_nil in Hv.
  - unfold StockAdjustmentTransaction_validate. intros Hv.
    destruct (product self);
      [apply append_if_nil in Hv as [_ Hv] |]; now apply append_if_nil in Hv.
Qed.

Lemma validated_quantity_nonzero (self : StockTransaction) :
  validate self = [] -> quantity self <> 0.
Proof.
  intros Hv. apply validate_nil_common in Hv.
  unfold StockTransaction_validate in Hv.
  apply append_if_nil in Hv as [_ Hv]. apply append_if_nil in Hv as [_ Hv].
  apply append_if_nil in Hv as [Hq _]. now apply Z.eqb_neq.
Qed.

(** The apply step of a variant after validation passed: without a bound
    product it returns at once; with one it either raises the capacity
    error of [add_stock], leaving everything as it was, or moves the stock
    by the signed quantity. *)
Lemma apply_transaction_validated (self : StockTransaction) :
  validate self = [] ->
  __class__ self <> StockTransaction_class ->
  match product self with
  | None => _apply_transaction utcnow self = (Returns tt, self)
  | Some p =>
      (0 < quantity self
       /\ _maximum_stock p < _stock_quantity p + quantity self
       /\ _apply_transaction utcnow self
          = (Raises (CapacityExceeded (quantity self) (_maximum_stock p)), self))
      \/ ((0 < quantity self ->
           _stock_quantity p + quantity self <= _maximum_stock p)
          /\ (quantity self < 0 -> - quantity self <= _stock_quantity p)
          /\ _apply_transaction utcnow self
             = (Returns tt,
                set_product
                  (Some (set_updated_at utcnow
                           (set_stock_quantity
                              (_stock_quantity p + quantity self) p)))
                  self))
  end.
Proof.
  intros Hv Hcls. destruct (product self) as [p |] eqn:Hprod.
  2:{ unfold _apply_transaction, bind, get.
      destruct (__class__ self); [contradiction | | |].
      - unfold StockInTransaction_apply_transaction, bind, get.
        now rewrite Hprod.
      - unfold StockOutTransaction_apply_transaction, bind, get.
        now rewrite Hprod.
      - unfold StockAdjustmentTransaction_apply_transaction, bind, get.
        now rewrite Hprod. }
  pose proof (set_product_same self p Hprod) as Hsame.
  unfold validate in Hv. unfold _apply_transaction, bind, get.
  destruct (__class__ self); [contradiction | | |].
  - unfold StockInTransaction_validate in Hv.
    apply append_if_nil in Hv as [_ Hv]. apply append_if_nil in Hv as [Hq _].
    apply Z.leb_gt in Hq.
    unfold StockInTransaction_apply_transaction, bind, get, on_product.
    rewrite Hprod.
    destruct (Z_le_gt_dec (_stock_quantity p + quantity self) (_maximum_stock p)).
    + right. rewrite add_stock_returns by lia. repeat split; [lia | lia].
    + left. rewrite add_stock_raises_over_capacity by lia.
      rewrite Hsame. repeat split; lia.
  - unfold StockOutTransaction_validate in Hv. rewrite Hprod in Hv.
    apply append_if_nil in Hv as [Hav Hv]. apply append_if_nil in Hv as [Hq _].
    apply negb_false_iff in Hav. unfold check_availability in Hav.
    unfold StockOutTransaction_apply_transaction, bind, get, on_product.
    rewrite Hprod. right.
    rewrite reduce_stock_returns by lia.
    replace (_stock_quantity p - Z.abs (quantity self))
      with (_stock_quantity p + quantity self) by lia.
    repeat split; lia.
  - unfold StockAdjustmentTransaction_validate in Hv. rewrite Hprod in Hv.
    apply append_if_nil in Hv as [Hav Hv]. apply append_if_nil in Hv as [Hq _].
    unfold check_availability in Hav.
    unfold StockAdjustmentTransaction_apply_transaction, bind, get, on_product.
    rewrite Hprod.
    destruct (Z.gtb_spec (quantity self) 0).
    + destruct (Z_le_gt_dec (_stock_quantity p + quantity self)
                  (_maximum_stock p)).
      * right. rewrite add_stock_returns by lia. repeat split; lia.
      * left. rewrite add_stock_raises_over_capacity by lia.
        rewrite Hsame. repeat split; lia.
    + right. rewrite reduce_stock_returns by lia.
      replace (_stock_quantity p - Z.abs (quantity self))
        with (_stock_quantity p + quantity self) by lia.
      repeat split; lia.
Qed.

Lemma process_transaction_raises_unchanged_aux
    (self self' : StockTransaction) (e : exception) :
  process_transaction utcnow self = (Raises e, self') -> self' = self.
Proof.
  unfold process_transaction, bind, get.
  destruct (_is_processed self); [now intros [= _ <-] |].
  destruct (validate self) as [| msg errors] eqn:Hv; [| now intros [= _ <-]].
  destruct (__class__ self) eqn:Hcls.
  { unfold _apply_transaction, bind, get. rewrite Hcls.
    now intros [= _ <-]. }
  all: assert (Hvar : __class__ self <> StockTransaction_class)
         by (rewrite Hcls; discriminate);
       pose proof (apply_transaction_validated self Hv Hvar) as Happ;
       destruct (product self) as [p |];
       [ destruct Happ as [(_ & _ & ->) | (_ & _ & ->)];
         [now intros [= _ <-] | discriminate]
       | rewrite Happ; discriminate ].
Qed.

(** X7. A call of [process_transaction] that raises, for whatever reason,
    leaves the transaction and its bound product exactly as they were. *)
Theorem process_transaction_raises_unchanged
    (self self' : StockTransaction) (e : exception) :
  process_transaction utcnow self = (Raises e, self') ->
  self' = self
  /\ is_processed self' = is_processed self
  /\ product self' = product self.
Proof.
  intros Hrun. apply process_transaction_raises_unchanged_aux in Hrun.
  now subst self'.
Qed.

(** X8. [process_transaction] returns exactly when the transaction is one
    of the three variants, is unprocessed, passes [validate], and, when it
    adds to a bound product, fits under the maximum of that product. *)
Theorem process_transaction_returns_iff (self : StockTransaction) :
  (exists self', process_transaction utcnow self = (Returns tt, self'))
  <-> is_processed self = false
      /\ validate self = []
      /\ __class__ self <> StockTransaction_class
      /\ (forall p,
            product self = Some p -> 0 < quantity self ->
            _stock_quantity p + quantity self <= _maximum_stock p).
Proof.
  unfold is_processed, process_transaction, bind, get. split.
  - intros (self' & Hrun).
    destruct (_is_processed self); [discriminate |].
    destruct (validate self) as [| msg errors] eqn:Hv; [| discriminate].
    assert (Hvar : __class__ self <> StockTransaction_class).
    { intros Hcls. unfold _apply_transaction, bind, get in Hrun.
      rewrite Hcls in Hrun. discriminate. }
    repeat split; try assumption.
    intros p Hprod Hq.
    pose proof (apply_transaction_validated self Hv Hvar) as Happ.
    rewrite Hprod in Happ.
    destruct Happ as [(_ & _ & Happ) | (Hfit & _)]; [| auto].
    rewrite Happ in Hrun. discriminate.
  - intros (-> & Hv & Hvar & Hfit). rewrite Hv.
    pose proof (apply_transaction_validated self Hv Hvar) as Happ.
    destruct (product self) as [p |].
    + destruct Happ as [(Hq & Hover & _) | (_ & _ & ->)].
      * specialize (Hfit p eq_refl Hq). lia.
      * eexists. reflexivity.
    + rewrite Happ. eexists. reflexivity.
Qed.

(** X9. Processing keeps a product within its bounds: when
    [process_transaction] returns on a transaction bound to a product with
    [0 <= stock <= maximum], the product it leaves has the same limits, the
    stock moved by the signed quantity, and is within its bounds again. *)
Theorem process_transaction_keeps_invariant
    (self self' : StockTransaction) (p : Product) :
  product self = Some p ->
  stock_invariant p ->
  process_transaction utcnow self = (Returns tt, self') ->
  exists p',
    product self' = Some p'
    /\ _stock_quantity p' = _stock_quantity p + quantity self
    /\ _minimum_stock p' = _minimum_stock p
    /\ _maximum_stock p' = _maximum_stock p
    /\ stock_invariant p'.
Proof.
  intros Hprod Hinv. unfold process_transaction, bind, get.
  destruct (_is_processed self); [discriminate |].
  destruct (validate self) as [| msg errors] eqn:Hv; [| discriminate].
  destruct (class_base_or_variant self) as [Hcls | Hvar].
  { unfold _apply_transaction, bind, get. rewrite Hcls. discriminate. }
  pose proof (validated_quantity_nonzero self Hv) as Hnz.
  pose proof (apply_transaction_validated self Hv Hvar) as Happ.
  rewrite Hprod in Happ.
  destruct Happ as [(_ & _ & ->) | (Hup & Hdown & ->)]; [discriminate |].
  unfold modify. intros [= <-].
  eexists. split; [destruct self; reflexivity |].
  unfold stock_invariant in *; cbn. repeat split; lia.
Qed.

(** X10. The errors of [reduce_stock] never come out of
    [process_transaction]: on any of the three variants whose unit cost, if
    it has one, is within the range of a float, what it raises is the
    already-processed error, the validation error, or the capacity error of
    [add_stock], the last only for a positive quantity. *)
Theorem process_transaction_errors
    (self self' : StockTransaction) (e : exception) :
  __class__ self <> StockTransaction_class ->
  (forall c, _unit_cost self = Some c -> float_safe c) ->
  process_transaction utcnow self = (Raises e, self') ->
  e = AlreadyProcessed
  \/ (validate self <> [] /\ e = ValidationFailed (validate self))
  \/ (0 < quantity self
      /\ exists p,
          product self = Some p
          /\ e = CapacityExceeded (quantity self) (_maximum_stock p)).
Proof.
  intros Hvar _. unfold process_transaction, bind, get.
  destruct (_is_processed self); [intros [= <- _]; now left |].
  destruct (validate self) as [| msg errors] eqn:Hv.
  2:{ intros [= <- _]. right. left. split; [discriminate | reflexivity]. }
  pose proof (apply_transaction_validated self Hv Hvar) as Happ.
  destruct (product self) as [p |].
  - destruct Happ as [(Hq & _ & ->) | (_ & _ & ->)]; [| discriminate].
    intros [= <- _]. right. right. split; [exact Hq |].
    exists p. split; reflexivity.
  - rewrite Happ. discriminate.
Qed.

End ProcessingLaws.

(** ** Text normalisation *)

Lemma isspace_upper_char (c : ascii) : isspace (upper_char c) = isspace c.
Proof. destruct c as [[] [] [] [] [] [] [] []]; reflexivity. Qed.

Lemma upper_char_idempotent (c : ascii) :
  upper_char (upper_char c) = upper_char c.
Proof. destruct c as [[] [] [] [] [] [] [] []]; reflexivity. Qed.

Lemma upper_idempotent (s : string) : upper (upper s) = upper s.
Proof.
  induction s as [| c s IH]; cbn; [reflexivity |].
  now rewrite upper_char_idempotent, IH.
Qed.

Lemma length_upper (s : string) : String.length (upper s) = String.length s.
Proof. induction s as [| c s IH]; cbn; congruence. Qed.

Lemma lstrip_upper (s : string) : lstrip (upper s) = upper (lstrip s).
Proof.
  induction s as [| c s IH]; cbn; [reflexivity |].
  rewrite isspace_upper_char. now destruct (isspace c).
Qed.

Lemma rstrip_upper (s : string) : rstrip (upper s) = upper (rstrip s).
Proof.
  induction s as [| c s IH]; cbn; [reflexivity |].
  rewrite IH, isspace_upper_char.
  destruct (rstrip s); cbn; [now destruct (isspace c) | reflexivity].
Qed.

Lemma strip_upper (s : string) : strip (upper s) = upper (strip s).
Proof. unfold strip. now rewrite lstrip_upper, rstrip_upper. Qed.

Lemma lstrip_starts_clean (s : string) : starts_clean (lstrip s).
Proof.
  induction s as [| c s IH]; cbn; [exact I |].
  destruct (isspace c) eqn:Hc; [exact IH | exact Hc].
Qed.

Lemma lstrip_of_clean (s : string) : starts_clean s -> lstrip s = s.
Proof. destruct s as [| c s]; cbn; [reflexivity | now intros ->]. Qed.

Lemma rstrip_starts_clean (s : string) :
  starts_clean s -> starts_clean (rstrip s).
Proof.
  destruct s as [| c s]; cbn; [auto |]. intros Hc.
  destruct (rstrip s); [rewrite Hc |]; exact Hc.
Qed.

Lemma rstrip_idempotent (s : string) : rstrip (rstrip s) = rstrip s.
Proof.
  induction s as [| c s IH]; cbn; [reflexivity |].
  destruct (rstrip s) as [| d r] eqn:Hr.
  - destruct (isspace c) eqn:Hc; cbn; [reflexivity | now rewrite Hc].
  - cbn [rstrip] in *. now rewrite IH.
Qed.

Lemma strip_idempotent (s : string) : strip (strip s) = strip s.
Proof.
  unfold strip.
  rewrite (lstrip_of_clean (rstrip (lstrip s)))
    by apply rstrip_starts_clean, lstrip_starts_clean.
  apply rstrip_idempotent.
Qed.

(** X11. The reference number a transaction stores is normalised once and
    for all: after [set_reference_number] returns, the stored text is at
    least three characters long and is unchanged by [strip] and by
    [upper], and storing it again changes nothing. *)
Theorem set_reference_number_normalises
    (ref : option string) (self self1 : StockTransaction) :
  set_reference_number ref self = (Returns tt, self1) ->
  strip (reference_number self1) = reference_number self1
  /\ upper (reference_number self1) = reference_number self1
  /\ 3 <= len (reference_number self1)
  /\ set_reference_number (Some (reference_number self1)) self1
     = (Returns tt, self1).
Proof.
  unfold set_reference_number, modify, raise.
  destruct ref as [r |]; [| discriminate].
  destruct (negb (truthy_str (Some r)) || (len (strip r) <? 3)) eqn:Href;
    [discriminate |].
  apply orb_false_elim in Href as [_ Hlen]. apply Z.ltb_ge in Hlen.
  intros [= <-].
  assert (Hstored :
    reference_number (set__reference_number (upper (strip r)) self)
    = upper (strip r)) by (destruct self; reflexivity).
  rewrite Hstored.
  assert (Hstrip : strip (upper (strip r)) = upper (strip r))
    by now rewrite strip_upper, strip_idempotent.
  assert (Hupper : upper (upper (strip r)) = upper (strip r))
    by apply upper_idempotent.
  assert (Hlen' : 3 <= len (upper (strip r)))
    by (unfold len in *; now rewrite length_upper).
  generalize dependent (upper (strip r)). intros u _ Hstrip Hupper Hlen'.
  split; [exact Hstrip |]. split; [exact Hupper |]. split; [exact Hlen' |].
  rewrite Hstrip, Hupper.
  destruct (Z.ltb_spec (len u) 3); [lia |].
  destruct u as [| c s]; [cbn in Hlen'; lia |].
  destruct self; reflexivity.
Qed.

(** ** Construction, continued *)

(** A base initialiser that returns has accepted the unit cost: none, or
    one that is not negative. *)
Lemma StockTransaction__init__cost
    (ref : option string) (pid : option Z) (q : Z) (cost : option Q)
    (notes pb : option string) (s0 s1 : StockTransaction) :
  StockTransaction__init__ ref pid q cost notes pb s0 = (Returns tt, s1) ->
  match cost with
  | Some c => Qltb c 0 = false
  | None => True
  end.
Proof.
  unfold StockTransaction__init__, set_reference_number, set_quantity,
    set_unit_cost, set_notes, set_processed_by, bind, modify, raise.
  destruct ref as [r |]; [| discriminate].
  destruct (negb (truthy_str (Some r)) || (len (strip r) <? 3));
    [discriminate |].
  destruct (q =? 0); [discriminate |].
  destruct cost as [c |]; [| auto].
  destruct (Qltb c 0); [discriminate | reflexivity].
Qed.

(** The reference check of [validate] on a normalised reference. *)
Lemma reference_check_passes (r : string) :
  3 <= len (strip r) ->
  negb (truthy_str (Some (upper (strip r))))
  || (len (strip (upper (strip r))) <? 3) = false.
Proof.
  intros Hlen.
  rewrite strip_upper, strip_idempotent.
  assert (Hlen' : 3 <= len (upper (strip r)))
    by (unfold len in *; now rewrite length_upper).
  destruct (Z.ltb_spec (len (upper (strip r))) 3); [lia |].
  destruct (upper (strip r)); [cbn in Hlen'; lia | reflexivity].
Qed.

(** X12. What the constructors accept, [validate] accepts: a stock-out or
    an adjustment transaction a constructor returned, with no product bound
    yet, passes [validate] exactly when its product id is set, that is
    neither [None] nor [0]. *)
Theorem constructed_transaction_validates
    (ref : option string) (pid : option Z) (q : Z)
    (extra notes pb : option string) (self : StockTransaction) :
  (construct StockOutTransaction
     (StockOutTransaction__init__ ref pid q extra notes pb) = Returns self
   \/ construct StockAdjustmentTransaction
        (StockAdjustmentTransaction__init__ ref pid q extra notes pb)
      = Returns self) ->
  (validate self = [] <-> truthy_int pid = true).
Proof.
  intros [Hnew | Hnew]; revert Hnew; constructed.
  all: unfold validate; cbn [__class__];
    unfold StockOutTransaction_validate, StockAdjustmentTransaction_validate,
      StockTransaction_validate, reference_number, quantity, unit_cost;
    cbn [_reference_number _quantity _unit_cost stock_transaction.product_id
         product].
  all: match goal with
       | H : 3 <= len (strip ?r) |- _ => rewrite (reference_check_passes r H)
       end.
  all: change (Qltb 0 0) with false; rewrite !append_if_false.
  - destruct (Z.eqb_spec (- Z.abs q) 0) as [| _]; [contradiction |].
    destruct (Z.geb_spec (- Z.abs q) 0); [lia |].
    rewrite !append_if_false.
    destruct (truthy_int pid); cbn; split; congruence.
  - destruct (Z.eqb_spec q 0) as [| _]; [contradiction |].
    rewrite !append_if_false.
    destruct (truthy_int pid); cbn; split; congruence.
Qed.

(** X13. A stock-in transaction a constructor returned from a unit cost
    within the range of a float, or from none, with no product bound yet,
    passes [validate] exactly when its product id is set, its quantity is
    positive and it has a positive unit cost. *)
Theorem constructed_stock_in_validates
    (ref : option string) (pid : option Z) (q : Z) (cost : option Q)
    (sref notes pb : option string) (self : StockTransaction) :
  (forall c, cost = Some c -> float_safe c) ->
  construct StockInTransaction
    (StockInTransaction__init__ ref pid q cost sref notes pb) = Returns self ->
  (validate self = []
   <-> truthy_int pid = true /\ 0 < q
       /\ exists c, cost = Some c /\ (0 < c)%Q).
Proof.
  intros _.
  unfold construct, StockInTransaction__init__, bind, modify.
  destruct (StockTransaction__init__ ref pid q cost notes pb
              (__new__ StockInTransaction)) as [[[] | e] s1] eqn:Hinit;
    [| discriminate].
  pose proof (StockTransaction__init__cost _ _ _ _ _ _ _ _ Hinit) as Hcost.
  apply StockTransaction__init__returns in Hinit as (r & -> & Hlen & Hq & ->).
  intros [= <-].
  unfold validate; cbn [__class__].
  unfold StockInTransaction_validate, StockTransaction_validate,
    reference_number, quantity, unit_cost.
  cbn [_reference_number _quantity _unit_cost stock_transaction.product_id].
  rewrite (reference_check_passes r Hlen).
  destruct (Z.eqb_spec q 0) as [| _]; [contradiction |].
  rewrite !append_if_false.
  assert (Hsign : forall c : Q,
             Qltb c 0 = false ->
             Qltb (if Qeq_bool c 0 then 0%Q else c) 0 = false).
  { intros c Hc. destruct (Qeq_bool c 0); [reflexivity | exact Hc]. }
  assert (Hpos : forall c : Q,
             Qeq_bool (if Qeq_bool c 0 then 0%Q else c) 0
             || Qle_bool (if Qeq_bool c 0 then 0%Q else c) 0 = false
             <-> (0 < c)%Q).
  { intros c. destruct (Qeq_bool c 0) eqn:Hz.
    - apply Qeq_bool_iff in Hz. cbn. split; [discriminate |].
      intros Hlt. rewrite Hz in Hlt. now apply Qlt_irrefl in Hlt.
    - rewrite Hz. cbn [orb]. split.
      + intros Hle. apply Qnot_le_lt. intros H.
        apply Qle_bool_iff in H. congruence.
      + intros Hlt. apply not_true_is_false. intros H.
        apply Qle_bool_iff in H. exact (Qlt_not_le _ _ Hlt H). }
  destruct cost as [c |].
  - rewrite (Hsign c Hcost), append_if_false.
    specialize (Hpos c).
    destruct (Qeq_bool (if Qeq_bool c 0 then 0%Q else c) 0
              || Qle_bool (if Qeq_bool c 0 then 0%Q else c) 0).
    + split.
      * intros Hv. apply append_if_nil in Hv as [Hv _]. discriminate.
      * intros (_ & _ & c' & [= <-] & Hc').
        apply Hpos in Hc'. discriminate.
    + rewrite append_if_false. split.
      * intros Hv. apply append_if_nil in Hv as [Hq' Hv].
        apply append_if_nil in Hv as [Hp _]. apply negb_false_iff in Hp.
        split; [exact Hp |]. split; [lia |].
        exists c. split; [reflexivity | now apply Hpos].
      * intros (Hp & Hq' & _). rewrite Hp. cbn [negb].
        destruct (Z.leb_spec q 0); [lia | reflexivity].
  - change (Qltb 0 0) with false. rewrite append_if_false. split.
    + intros Hv. apply append_if_nil in Hv as [Hv _]. discriminate.
    + intros (_ & _ & c' & [=] & _).
Qed.

(** X14. With a product bound, an adjustment transaction constructed from
    the quantity [q] gets an insufficient-stock error from [validate]
    exactly when it takes out more than the product holds: [q < 0] and the
    stock is below [- q]. *)
Theorem adjustment_availability
    (ref : option string) (pid : option Z) (q : Z)
    (reason notes pb : option string) (self : StockTransaction) :
  construct StockAdjustmentTransaction
    (StockAdjustmentTransaction__init__ ref pid q reason notes pb)
    = Returns self ->
  quantity self = q
  /\ forall p : Product,
      (exists msg,
          In msg (validate (set_product (Some p) self))
          /\ insufficient_stock_error msg = true)
      <-> q < 0 /\ _stock_quantity p < - q.
Proof.
  constructed. split; [reflexivity |]. intros p.
  unfold set_product, validate; cbn [__class__].
  unfold StockAdjustmentTransaction_validate, StockTransaction_validate.
  unfold quantity; cbn [_quantity product].
  split.
  - intros (msg & Hin & Hkind).
    rewrite !In_append_if in Hin. cbn [In] in Hin.
    destruct Hin as [[[[[[[] | [_ ->]] | [_ ->]] | [_ ->]] | [_ ->]] | [_ ->]]
                     | [Hav _]];
      try discriminate Hkind.
    apply andb_true_iff in Hav as [Hneg Hav].
    unfold check_availability in Hav. apply negb_true_iff in Hav. lia.
  - intros [Hneg Hlow]. eexists. split.
    + apply In_append_if. right. split; [| reflexivity].
      apply andb_true_iff. split; [lia |].
      unfold check_availability. apply negb_true_iff. lia.
    + reflexivity.
Qed.

(** ** The factory and its caller *)

(** The only errors a base initialiser raises. *)
Lemma StockTransaction__init__raises
    (ref : option string) (pid : option Z) (q : Z) (cost : option Q)
    (notes pb : option string) (s0 s1 : StockTransaction) (e : exception) :
  StockTransaction__init__ ref pid q cost notes pb s0 = (Raises e, s1) ->
  e = ValueError "Reference number must be at least 3 characters long"
  \/ e = ValueError "Transaction quantity cannot be zero"
  \/ e = ValueError "Unit cost cannot be negative".
Proof.
  unfold StockTransaction__init__, set_reference_number, set_quantity,
    set_unit_cost, set_notes, set_processed_by, bind, modify, raise.
  destruct ref as [r |]; [| intros [= <- _]; auto].
  destruct (negb (truthy_str (Some r)) || (len (strip r) <? 3));
    [intros [= <- _]; auto |].
  destruct (q =? 0); [intros [= <- _]; auto |].
  destruct cost as [c |]; [| discriminate].
  destruct (Qltb c 0); [intros [= <- _]; auto | discriminate].
Qed.

Lemma construct_raises (cls : class) (init : M StockTransaction unit)
    (e : exception) :
  construct cls init = Raises e ->
  exists s1, init (__new__ cls) = (Raises e, s1).
Proof.
  unfold construct. destruct (init (__new__ cls)) as [[[] | e'] s1];
    [discriminate |]. intros [= <-]. now exists s1.
Qed.

Lemma subclass_init_raises (cls : class) (init : M StockTransaction unit)
    (ref : option string) (pid : option Z) (q : Z) (cost : option Q)
    (notes pb : option string) (k : M StockTransaction unit)
    (e : exception) :
  init = (StockTransaction__init__ ref pid q cost notes pb ;; k) ->
  (forall s, exists s', k s = (Returns tt, s')) ->
  construct cls init = Raises e -> constructor_error e.
Proof.
  intros -> Hk Hraise. apply construct_raises in Hraise as (s1 & Hraise).
  unfold bind in Hraise.
  destruct (StockTransaction__init__ ref pid q cost notes pb (__new__ cls))
    as [[[] | e'] s2] eqn:Hinit.
  - destruct (Hk s2) as (s' & Hs'). rewrite Hs' in Hraise. discriminate.
  - injection Hraise as <- _. right.
    exact (StockTransaction__init__raises _ _ _ _ _ _ _ _ _ Hinit).
Qed.

Lemma supported_call_raises (t : TransactionType) (kw : kwargs)
    (e : exception) :
  In t get_supported_types ->
  create_transaction (Member t) kw = Raises e ->
  constructor_error e.
Proof.
  intros Hin.
  destruct t; cbn in Hin; try (exfalso; intuition discriminate);
    cbn [create_transaction].
  - unfold StockInTransaction_call.
    destruct (_ || _); [intros [= <-]; now left |].
    destruct (kw_reference_number kw) as [ref |]; [| intros [= <-]; now left].
    destruct (kw_product_id kw) as [pid |]; [| intros [= <-]; now left].
    destruct (kw_quantity kw) as [q |]; [| intros [= <-]; now left].
    destruct (kw_unit_cost kw) as [cost |]; [| intros [= <-]; now left].
    apply (subclass_init_raises _ _ ref pid q cost
             (or_None (kw_notes kw)) (or_None (kw_processed_by kw))
             (modify (set_transaction_type (Some STOCK_IN)) ;;
              modify (set__supplier_reference
                        (or_None (kw_supplier_reference kw)))));
      [reflexivity | intros s; eexists; reflexivity].
  - unfold StockOutTransaction_call.
    destruct (_ || _); [intros [= <-]; now left |].
    destruct (kw_reference_number kw) as [ref |]; [| intros [= <-]; now left].
    destruct (kw_product_id kw) as [pid |]; [| intros [= <-]; now left].
    destruct (kw_quantity kw) as [q |]; [| intros [= <-]; now left].
    apply (subclass_init_raises _ _ ref pid (- Z.abs q) None
             (or_None (kw_notes kw)) (or_None (kw_processed_by kw))
             (modify (set_transaction_type (Some STOCK_OUT)) ;;
              modify (set__customer_reference
                        (or_None (kw_customer_reference kw)))));
      [reflexivity | intros s; eexists; reflexivity].
  - unfold StockAdjustmentTransaction_call.
    destruct (_ || _); [intros [= <-]; now left |].
    destruct (kw_reference_number kw) as [ref |]; [| intros [= <-]; now left].
    destruct (kw_product_id kw) as [pid |]; [| intros [= <-]; now left].
    destruct (kw_adjustment_quantity kw) as [q |];
      [| intros [= <-]; now left].
    apply (subclass_init_raises _ _ ref pid q None
             (or_None (kw_notes kw)) (or_None (kw_processed_by kw))
             (modify (set_transaction_type (Some ADJUSTMENT)) ;;
              modify (set__reason (or_None (kw_reason kw)))));
      [reflexivity | intros s; eexists; reflexivity].
Qed.

(** X15. Asked for a supported type, the factory raises nothing but a
    [TypeError] for a missing or unexpected keyword, or one of the three
    field errors of the initialiser: the reference too short, the quantity
    zero, the unit cost negative. *)
Theorem create_transaction_errors (t : TransactionType) (kw : kwargs)
    (e : exception) :
  In t get_supported_types ->
  create_transaction (Member t) kw = Raises e ->
  e = TypeError
  \/ e = ValueError "Reference number must be at least 3 characters long"
  \/ e = ValueError "Transaction quantity cannot be zero"
  \/ e = ValueError "Unit cost cannot be negative".
Proof. exact (supported_call_raises t kw e). Qed.

(** X16. The list [get_supported_types] advertises and the dispatch of
    [create_transaction] agree: a member of the enumeration is in the
    list exactly when the factory never answers it with the
    unsupported-type error, whatever the keyword arguments. *)
Theorem supported_types_are_dispatched (t : TransactionType) :
  In t get_supported_types
  <-> forall kw : kwargs,
      create_transaction (Member t) kw <> Raises (UnsupportedType (Member t)).
Proof.
  split.
  - intros Hin kw Hraise.
    pose proof (supported_call_raises t kw _ Hin Hraise) as Herr.
    destruct t; destruct Herr as [H | [H | [H | H]]]; discriminate H.
  - intros Hsupported. destruct t; cbn; auto.
    + exfalso. apply (Hsupported no_kwargs). reflexivity.
    + exfalso. apply (Hsupported no_kwargs). reflexivity.
Qed.

(** X17. The create route cannot create an adjustment: it passes the
    quantity under the keyword [quantity], where
    [StockAdjustmentTransaction] expects [adjustment_quantity], so for
    every request the call of the factory raises [TypeError].  For
    [TRANSFER] and [RETURN] the call raises the unsupported-type error. *)
Theorem create_route_rejects_adjustment (data : routes_stock_transaction.fields) :
  routes_stock_transaction.create_from_params ADJUSTMENT data
    = inr (Raises TypeError)
  /\ routes_stock_transaction.create_from_params TRANSFER data
     = inr (Raises (UnsupportedType (Member TRANSFER)))
  /\ routes_stock_transaction.create_from_params RETURN data
     = inr (Raises (UnsupportedType (Member RETURN))).
Proof. repeat split. Qed.

(** X18. For a stock-out the keyword arguments of the create route fit the
    constructor: the call of the factory returns exactly when the stripped
    reference has three characters or more and the quantity is not zero,
    and the transaction it returns stores [- |quantity|] under the
    normalised reference. *)
Theorem create_route_stock_out (data : routes_stock_transaction.fields) :
  let ref := routes_stock_transaction.f_reference_number data in
  let q := routes_stock_transaction.f_quantity data in
  ((exists self,
       routes_stock_transaction.create_from_params STOCK_OUT data
       = inr (Returns self))
   <-> 3 <= len (strip ref) /\ q <> 0)
  /\ forall self,
      routes_stock_transaction.create_from_params STOCK_OUT data
      = inr (Returns self) ->
      quantity self = - Z.abs q
      /\ reference_number self = upper (strip ref)
      /\ __class__ self = StockOutTransaction.
Proof.
  cbv zeta.
  unfold routes_stock_transaction.create_from_params,
    routes_stock_transaction.transaction_params.
  cbn [create_transaction]. unfold StockOutTransaction_call.
  cbn [kw_adjustment_quantity kw_unit_cost kw_supplier_reference kw_reason
       kw_reference_number kw_product_id kw_quantity kw_customer_reference
       kw_notes kw_processed_by passed orb or_None].
  split; [split |].
  - intros (self & [= Hnew]). revert Hnew.
    unfold construct, StockOutTransaction__init__, bind, modify.
    destruct (StockTransaction__init__ _ _ _ _ _ _ _) as [[[] | e] s1] eqn:Hinit;
      [| discriminate].
    apply StockTransaction__init__returns in Hinit
      as (r & [= <-] & Hlen & Hq & _).
    intros _. split; [assumption | lia].
  - intros [Hlen Hq].
    destruct (StockTransaction__init__accepts
                (routes_stock_transaction.f_reference_number data)
                (Some (routes_stock_transaction.f_product_id data))
                (- Z.abs (routes_stock_transaction.f_quantity data)) None
                (routes_stock_transaction.f_notes data)
                (routes_stock_transaction.f_processed_by data)
                (__new__ StockOutTransaction) Hlen ltac:(lia) I)
      as (s1 & Hinit).
    unfold construct, StockOutTransaction__init__, bind, modify.
    rewrite Hinit. eexists. reflexivity.
  - intros self [= Hnew]. revert Hnew.
    unfold construct, StockOutTransaction__init__, bind, modify.
    destruct (StockTransaction__init__ _ _ _ _ _ _ _) as [[[] | e] s1] eqn:Hinit;
      [| discriminate].
    apply StockTransaction__init__returns in Hinit
      as (r & [= <-] & _ & _ & ->).
    intros [= <-]. repeat split.
Qed.

(** ** The stock route, continued *)

Section StockRoute.

Variable utcnow : datetime.

(** How a request to the stock route can end: with the product untouched
    and no success response, or with one of the three operations carried
    out and committed. *)
Lemma update_product_stock_cases (p p' : Product)
    (data : option routes_product.request_json) (r : routes_product.response) :
  routes_product.update_product_stock utcnow (Some p) data = (r, Some p') ->
  (p' = p /\ forall status d, r <> routes_product.success status d)
  \/ exists op q,
      data = Some (routes_product.mk_request_json (Some op) (Some q))
      /\ r = routes_product.success 200
               (routes_product.mk_stock_change op q (_stock_quantity p)
                  (_stock_quantity p') (get_stock_status p'))
      /\ _minimum_stock p' = _minimum_stock p
      /\ _maximum_stock p' = _maximum_stock p
      /\ ((op = "add" /\ 0 < q
           /\ _stock_quantity p' = _stock_quantity p + q
           /\ _stock_quantity p' <= _maximum_stock p)
          \/ (op = "reduce" /\ 0 < q
              /\ _stock_quantity p' = _stock_quantity p - q
              /\ 0 <= _stock_quantity p')
          \/ (op = "set" /\ 0 <= q /\ _stock_quantity p' = q)).
Proof.
  unfold routes_product.update_product_stock,
    routes_product.update_product_stock_body.
  destruct data as [[[op |] [q |]] |]; cbn [routes_product.operation
    routes_product.quantity];
    try (intros [= <- <-]; left; split; [reflexivity | discriminate]).
  destruct (negb (truthy_str (Some op)));
    [intros [= <- <-]; left; split; [reflexivity | discriminate] |].
  destruct (negb (existsb (String.eqb op) ["add"; "reduce"; "set"])) eqn:Hop;
    [intros [= <- <-]; left; split; [reflexivity | discriminate] |].
  unfold bind, get, modify, ret. cbv beta iota.
  destruct (String.eqb_spec op "add") as [-> | Hadd].
  { destruct (add_stock utcnow q p) as [[n | e] p1] eqn:Hrun.
    - apply add_stock_returns_inv in Hrun as (Hq & Hfit & -> & ->).
      rewrite commit_after_stamp by lia.
      destruct (routes_product.fits_integer_column (_stock_quantity p + q)).
      + intros [= <- <-]. right. exists "add", q. cbn.
        repeat split. left. repeat split; assumption.
      + intros [= <- <-]. left. split; [reflexivity | discriminate].
    - apply add_stock_raises_unchanged in Hrun as ->.
      destruct e; intros [= <- <-]; left; split; (reflexivity || discriminate). }
  destruct (String.eqb_spec op "reduce") as [-> | Hreduce].
  { destruct (reduce_stock utcnow q p) as [[n | e] p1] eqn:Hrun.
    - apply reduce_stock_returns_inv in Hrun as (Hq & Hfit & -> & ->).
      rewrite commit_after_stamp by lia.
      destruct (routes_product.fits_integer_column (_stock_quantity p - q)).
      + intros [= <- <-]. right. exists "reduce", q. cbn.
        repeat split. right. left. repeat split; (assumption || lia).
      + intros [= <- <-]. left. split; [reflexivity | discriminate].
    - apply reduce_stock_raises_unchanged in Hrun as ->.
      destruct e; intros [= <- <-]; left; split; (reflexivity || discriminate). }
  assert (op = "set") as ->.
  { apply negb_false_iff in Hop. cbn in Hop.
    destruct (String.eqb_spec op "add"); [contradiction |].
    destruct (String.eqb_spec op "reduce"); [contradiction |].
    destruct (String.eqb_spec op "set"); [assumption | discriminate]. }
  destruct (Z.ltb_spec q 0).
  { intros [= <- <-]. left. split; [reflexivity | discriminate]. }
  rewrite commit_after_set.
  destruct (q =? _stock_quantity p).
  { intros [= <- <-]. right. exists "set", q. cbn.
    repeat split. right. right. repeat split. assumption. }
  destruct (routes_product.fits_integer_column q).
  - intros [= <- <-]. right. exists "set", q. cbn.
    repeat split. right. right. repeat split. assumption.
  - intros [= <- <-]. left. split; [reflexivity | discriminate].
Qed.

(** X19. A request to the stock route that is not answered with success
    leaves the product exactly as it was, whatever the body of the
    request. *)
Theorem update_product_stock_failure_unchanged (p p' : Product)
    (data : option routes_product.request_json) (r : routes_product.response) :
  routes_product.update_product_stock utcnow (Some p) data = (r, Some p') ->
  (exists d, r = routes_product.success 200 d) \/ p' = p.
Proof.
  intros Hrun. apply update_product_stock_cases in Hrun.
  destruct Hrun as [[-> _] | (op & q & _ & -> & _)]; [now right |].
  left. eexists. reflexivity.
Qed.

(** X20. No request to the stock route can make the stock negative: add,
    reduce and set all keep a stock that is not negative that way, and
    never touch the limits. *)
Theorem update_product_stock_never_negative (p p' : Product)
    (data : option routes_product.request_json) (r : routes_product.response) :
  0 <= _stock_quantity p ->
  routes_product.update_product_stock utcnow (Some p) data = (r, Some p') ->
  0 <= _stock_quantity p'
  /\ _minimum_stock p' = _minimum_stock p
  /\ _maximum_stock p' = _maximum_stock p.
Proof.
  intros Hstock Hrun. apply update_product_stock_cases in Hrun.
  destruct Hrun as [[-> _] | (op & q & _ & _ & Hmin & Hmax & Hop)];
    [auto |].
  split; [| split; assumption].
  destruct Hop as [(_ & Hq & -> & _) | [(_ & _ & _ & Hleft) | (_ & Hq & ->)]];
    lia.
Qed.

(** X21. A success response of the stock route describes the product as
    the request left it: the old quantity is the stock before, the new
    quantity is the stock after and the status is the status after; the
    new quantity is the old one plus the quantity for add, minus it for
    reduce, and the quantity itself for set. *)
Theorem update_product_stock_success_report (p p' : Product)
    (data : option routes_product.request_json)
    (status : Z) (d : routes_product.stock_change) :
  routes_product.update_product_stock utcnow (Some p) data
    = (routes_product.success status d, Some p') ->
  status = 200
  /\ routes_product.r_old_quantity d = _stock_quantity p
  /\ routes_product.r_new_quantity d = _stock_quantity p'
  /\ routes_product.r_stock_status d = get_stock_status p'
  /\ (let old := routes_product.r_old_quantity d in
      let new := routes_product.r_new_quantity d in
      let q := routes_product.r_quantity_changed d in
      (routes_product.r_operation d = "add" /\ 0 < q /\ new = old + q)
      \/ (routes_product.r_operation d = "reduce" /\ 0 < q /\ new = old - q)
      \/ (routes_product.r_operation d = "set" /\ 0 <= q /\ new = q)).
Proof.
  intros Hrun. apply update_product_stock_cases in Hrun.
  destruct Hrun as [[_ Hno] | (op & q & _ & [= -> ->] & _ & _ & Hop)];
    [now contradiction (Hno status d) |].
  cbn. repeat split.
  destruct Hop as [(-> & Hq & Hnew & _) | [(-> & Hq & Hnew & _)
                                          | (-> & Hq & Hnew)]].
  - left. repeat split; assumption.
  - right. left. repeat split; assumption.
  - right. right. repeat split; assumption.
Qed.

(** X22. Unlike set, the add and reduce operations of the stock route keep
    a product within its bounds, whether or not they succeed. *)
Theorem update_product_stock_add_reduce_invariant (p p' : Product)
    (op : string) (q : option Z) (r : routes_product.response) :
  op = "add" \/ op = "reduce" ->
  stock_invariant p ->
  routes_product.update_product_stock utcnow (Some p)
    (Some (routes_product.mk_request_json (Some op) q)) = (r, Some p') ->
  stock_invariant p'.
Proof.
  intros Hop Hinv Hrun. apply update_product_stock_cases in Hrun.
  destruct Hrun as [[-> _] | (op' & q' & [= <- _] & _ & _ & Hmax & Hdone)];
    [assumption |].
  unfold stock_invariant in *. rewrite Hmax.
  destruct Hdone as [(_ & Hq & Hnew & Hfit) | [(_ & Hq & Hnew & Hleft)
                                             | (-> & _)]].
  - lia.
  - lia.
  - destruct Hop; discriminate.
Qed.

End StockRoute.

(** ** The process route *)

Section ProcessRoute.

Variable utcnow : datetime.

(** X23. The process route answers 409 for a transaction that is already
    processed and leaves it alone; the already-processed error of
    [process_transaction] itself is therefore never what the route
    reports. *)
Theorem process_route_conflict (transaction : StockTransaction) :
  (is_processed transaction = true ->
   routes_stock_transaction.process_stock_transaction utcnow (Some transaction)
   = (routes_stock_transaction.failure 409 "Transaction is already processed",
      Some transaction))
  /\ forall status row',
      routes_stock_transaction.process_stock_transaction utcnow
        (Some transaction)
      <> (routes_stock_transaction.failure_str status AlreadyProcessed, row').
Proof.
  unfold routes_stock_transaction.process_stock_transaction,
    routes_stock_transaction.process_stock_transaction_body, bind, get.
  split.
  - intros Hproc. cbv beta iota. now rewrite Hproc.
  - intros status row'.
    destruct (is_processed transaction) eqn:Hproc; [discriminate |].
    destruct (process_transaction utcnow transaction) as [[[] | e] t1] eqn:Hrun;
      [discriminate |].
    assert (He : e <> AlreadyProcessed).
    { intros ->. revert Hrun. unfold process_transaction, bind, get.
      unfold is_processed in Hproc. rewrite Hproc.
      destruct (validate transaction) as [| msg errors] eqn:Hv;
        [| discriminate].
      destruct (class_base_or_variant transaction) as [Hcls | Hvar].
      { unfold _apply_transaction, bind, get. rewrite Hcls. discriminate. }
      pose proof (apply_transaction_validated utcnow transaction Hv Hvar)
        as Happ.
      destruct (product transaction) as [p |].
      - destruct Happ as [(_ & _ & ->) | (_ & _ & ->)]; discriminate.
      - rewrite Happ. discriminate. }
    destruct e; intros [= _ -> _]. now apply He.
Qed.

(** X24. What the process route reports on success is what happened: the
    transaction it returns is processed, the old and the new stock are the
    stock of the bound product before and after, and their difference is
    the signed quantity of the transaction, or [0] without a bound
    product. *)
Theorem process_route_success_report
    (transaction transaction' reported : StockTransaction)
    (status old_stock new_stock change : Z) :
  routes_stock_transaction.process_stock_transaction utcnow (Some transaction)
  = (routes_stock_transaction.success status reported old_stock new_stock
       change,
     Some transaction') ->
  status = 200
  /\ reported = transaction'
  /\ is_processed transaction' = true
  /\ old_stock = routes_stock_transaction.stock_or_0 transaction
  /\ new_stock = routes_stock_transaction.stock_or_0 transaction'
  /\ change = match product transaction with
              | Some _ => quantity transaction
              | None => 0
              end.
Proof.
  unfold routes_stock_transaction.process_stock_transaction,
    routes_stock_transaction.process_stock_transaction_body, bind, get.
  destruct (is_processed transaction); [discriminate |].
  destruct (process_transaction utcnow transaction) as [[[] | e] t1] eqn:Hrun.
  2:{ destruct e; discriminate. }
  intros [= <- <- <- <- <- <-].
  revert Hrun. unfold process_transaction, bind, get.
  destruct (_is_processed transaction); [discriminate |].
  destruct (validate transaction) as [| msg errors] eqn:Hv; [| discriminate].
  destruct (_apply_transaction utcnow transaction) as [[[] | e] s1] eqn:Happ;
    [| discriminate].
  unfold modify. intros [= <-].
  pose proof (apply_transaction_returns utcnow transaction s1 Hv Happ) as Hs1.
  unfold routes_stock_transaction.stock_or_0.
  destruct (product transaction) as [p |] eqn:Hprod.
  - destruct Hs1 as (p' & -> & Hstock & _).
    destruct transaction; cbn in *. repeat split. lia.
  - subst s1. destruct transaction; cbn in *. rewrite Hprod.
    repeat split.
Qed.

(** X25. A request to the process route that is not answered with success
    leaves the transaction and its bound product exactly as they were. *)
Theorem process_route_failure_unchanged
    (transaction transaction' : StockTransaction)
    (r : routes_stock_transaction.response) :
  routes_stock_transaction.process_stock_transaction utcnow (Some transaction)
  = (r, Some transaction') ->
  (exists old_stock new_stock change,
      r = routes_stock_transaction.success 200 transaction' old_stock
            new_stock change)
  \/ transaction' = transaction.
Proof.
  unfold routes_stock_transaction.process_stock_transaction,
    routes_stock_transaction.process_stock_transaction_body, bind, get.
  destruct (is_processed transaction); [intros [= _ <-]; now right |].
  destruct (process_transaction utcnow transaction) as [[[] | e] t1] eqn:Hrun.
  - intros [= <- <-]. left. do 3 eexists. reflexivity.
  - apply (process_transaction_raises_unchanged_aux utcnow) in Hrun as ->.
    destruct e; intros [= _ <-]; now right.
Qed.

End ProcessRoute.

(** ** The low-stock listing *)

(** X26. The low-stock listing returns, in their order, exactly the
    products it was given that are empty or at or below their minimum, and
    counts them. *)
Theorem low_stock_listing (products : list Product) :
  let (listed, count) := routes_product.get_low_stock_products products in
  (forall p,
      In p listed
      <-> In p products
          /\ (_stock_quantity p = 0 \/ _stock_quantity p <= _minimum_stock p))
  /\ count = Z.of_nat (List.length listed)
  /\ (List.length listed <= List.length products)%nat.
Proof.
  unfold routes_product.get_low_stock_products.
  split; [| split; [reflexivity | apply filter_length_le]].
  intros p. rewrite filter_In.
  assert (Hstatus :
    existsb (String.eqb (get_stock_status p)) ["LOW_STOCK"; "OUT_OF_STOCK"]
    = true
    <-> _stock_quantity p = 0 \/ _stock_quantity p <= _minimum_stock p).
  { unfold get_stock_status.
    destruct (Z.eqb_spec (_stock_quantity p) 0); [cbn; intuition |].
    destruct (Z.leb_spec (_stock_quantity p) (_minimum_stock p));
      [cbn; intuition |].
    destruct (_ >=? _); cbn; intuition (discriminate || lia). }
  now rewrite Hstatus.
Qed.

(** * Instances of the further properties *)

Lemma add_then_reduce_round_trip_witness :
  add_stock 0 30 shelf_product = (Returns 80, mkProduct 80 10 200 (Some 0))
  /\ exists self2,
      reduce_stock 0 30 (mkProduct 80 10 200 (Some 0)) = (Returns 50, self2)
      /\ _stock_quantity self2 = 50.
Proof.
  split; [reflexivity |].
  assert (Hstock : 0 <= _stock_quantity shelf_product) by (cbn; lia).
  destruct (add_then_reduce_round_trip 0 shelf_product
              (mkProduct 80 10 200 (Some 0)) 30 80 Hstock eq_refl)
    as (self2 & Hrun & Hq & _).
  exists self2. split; [exact Hrun | exact Hq].
Defined.

Lemma reduce_then_add_round_trip_witness :
  reduce_stock 0 20 shelf_product = (Returns 30, mkProduct 30 10 200 (Some 0))
  /\ exists self2,
      add_stock 0 20 (mkProduct 30 10 200 (Some 0)) = (Returns 50, self2)
      /\ _stock_quantity self2 = 50.
Proof.
  split; [reflexivity |].
  assert (Hmax : _stock_quantity shelf_product <= _maximum_stock shelf_product)
    by (cbn; lia).
  destruct (reduce_then_add_round_trip 0 shelf_product
              (mkProduct 30 10 200 (Some 0)) 20 30 Hmax eq_refl)
    as (self2 & Hrun & Hq & _).
  exists self2. split; [exact Hrun | exact Hq].
Defined.

Lemma add_stock_twice_witness :
  (add_stock 0 30 ;; add_stock 0 20) shelf_product
    = (Returns 100, mkProduct 100 10 200 (Some 0))
  /\ add_stock 0 (30 + 20) shelf_product
     = (Returns 100, mkProduct 100 10 200 (Some 0)).
Proof.
  assert (Ha : 0 < 30) by lia. assert (Hb : 0 < 20) by lia.
  split; [reflexivity |].
  exact (proj1 (add_stock_twice 0 shelf_product
                  (mkProduct 100 10 200 (Some 0)) 30 20 100 Ha Hb) eq_refl).
Defined.

Lemma reduce_stock_iff_available_witness :
  check_availability shelf_product 50 = true
  /\ (exists n self', reduce_stock 0 50 shelf_product = (Returns n, self'))
  /\ check_availability shelf_product 51 = false
  /\ ~ (exists n self', reduce_stock 0 51 shelf_product = (Returns n, self')).
Proof.
  assert (H50 : 0 < 50) by lia. assert (H51 : 0 < 51) by lia.
  split; [reflexivity |]. split; [| split; [reflexivity |]].
  - apply (reduce_stock_iff_available 0 shelf_product 50 H50). reflexivity.
  - intros H. apply (reduce_stock_iff_available 0 shelf_product 51 H51) in H.
    discriminate H.
Defined.

Lemma stock_status_after_primitives_witness :
  get_stock_status (mkProduct 0 10 200 None) = "OUT_OF_STOCK"
  /\ add_stock 0 5 (mkProduct 0 10 200 None)
     = (Returns 5, mkProduct 5 10 200 (Some 0))
  /\ get_stock_status (mkProduct 5 10 200 (Some 0)) <> "OUT_OF_STOCK"
  /\ reduce_stock 0 50 shelf_product
     = (Returns 0, mkProduct 0 10 200 (Some 0))
  /\ get_stock_status (mkProduct 0 10 200 (Some 0)) = "OUT_OF_STOCK".
Proof.
  assert (H0 : 0 <= _stock_quantity (mkProduct 0 10 200 None)) by (cbn; lia).
  assert (H50 : 0 <= _stock_quantity shelf_product) by (cbn; lia).
  split; [reflexivity |]. split; [reflexivity |]. split.
  - exact (proj1 (stock_status_after_primitives 0 (mkProduct 0 10 200 None)
                    (mkProduct 5 10 200 (Some 0)) 5 5 H0) eq_refl).
  - split; [reflexivity |].
    exact (proj2 (stock_status_after_primitives 0 shelf_product
                    (mkProduct 0 10 200 (Some 0)) 50 0 H50) eq_refl eq_refl).
Defined.

Lemma set_stock_limits_spec_witness :
  set_stock_limits 5 20 shelf_product = (Returns tt, mkProduct 50 5 20 None)
  /\ ~ stock_invariant (mkProduct 50 5 20 None)
  /\ (exists msg,
         set_stock_limits (-1) 20 shelf_product
         = (Raises (ValueError msg), shelf_product))
  /\ exists msg,
      set_stock_limits 30 20 shelf_product
      = (Raises (ValueError msg), shelf_product).
Proof.
  assert (Hok : 0 <= 5 <= 20) by lia.
  assert (Hover : 20 < _stock_quantity shelf_product) by (cbn; lia).
  assert (Hneg : ~ 0 <= -1 <= 20) by lia.
  assert (Hinv : ~ 0 <= 30 <= 20) by lia.
  destruct (set_stock_limits_spec shelf_product 5 20) as (Hset & _ & Hbreak).
  destruct (set_stock_limits_spec shelf_product (-1) 20) as (_ & Hraise1 & _).
  destruct (set_stock_limits_spec shelf_product 30 20) as (_ & Hraise2 & _).
  split; [exact (Hset Hok) |]. split.
  - destruct (Hbreak Hok Hover) as (self' & Hrun & _ & Hbroken).
    rewrite (Hset Hok) in Hrun. injection Hrun as <-. exact Hbroken.
  - split; [exact (Hraise1 Hneg) | exact (Hraise2 Hinv)].
Defined.

Lemma process_transaction_raises_unchanged_witness :
  let self := stock_in_object 20 (Some full_product) false in
  process_transaction 0 self = (Raises (CapacityExceeded 20 100), self)
  /\ product self = Some full_product.
Proof.
  cbv zeta. split; [reflexivity |].
  destruct (process_transaction_raises_unchanged 0
              (stock_in_object 20 (Some full_product) false)
              (stock_in_object 20 (Some full_product) false)
              (CapacityExceeded 20 100) eq_refl) as (_ & _ & Hprod).
  exact Hprod.
Defined.

Lemma process_transaction_keeps_invariant_witness :
  let p' := mkProduct 45 10 200 (Some 0) in
  let self' :=
    set__updated_at (Some 0)
      (set__is_processed true (stock_out_object (Some p'))) in
  stock_invariant shelf_product
  /\ process_transaction 0 (stock_out_object (Some shelf_product))
     = (Returns tt, self')
  /\ product self' = Some p'
  /\ stock_invariant p'.
Proof.
  cbv zeta.
  assert (Hinv : stock_invariant shelf_product)
    by (unfold stock_invariant; cbn; lia).
  split; [exact Hinv |]. split; [reflexivity |]. split; [reflexivity |].
  destruct (process_transaction_keeps_invariant 0
              (stock_out_object (Some shelf_product))
              (set__updated_at (Some 0)
                 (set__is_processed true
                    (stock_out_object (Some (mkProduct 45 10 200 (Some 0))))))
              shelf_product eq_refl Hinv eq_refl)
    as (p' & Hprod & _ & _ & _ & Hinv').
  injection Hprod as <-. exact Hinv'.
Defined.

Lemma float_safe_sample : float_safe (5 # 2).
Proof.
  right. split; apply Qle_bool_iff; vm_compute; reflexivity.
Defined.

Lemma process_transaction_errors_witness :
  let self := stock_in_object 20 (Some full_product) false in
  (forall c, _unit_cost self = Some c -> float_safe c)
  /\ process_transaction 0 self = (Raises (CapacityExceeded 20 100), self)
  /\ (CapacityExceeded 20 100 = AlreadyProcessed
      \/ (validate self <> []
          /\ CapacityExceeded 20 100 = ValidationFailed (validate self))
      \/ (0 < quantity self
          /\ exists p,
              product self = Some p
              /\ CapacityExceeded 20 100
                 = CapacityExceeded (quantity self) (_maximum_stock p))).
Proof.
  cbv zeta.
  assert (Hcost : forall c,
             _unit_cost (stock_in_object 20 (Some full_product) false)
             = Some c -> float_safe c).
  { intros c [= <-]. exact float_safe_sample. }
  split; [exact Hcost |]. split; [reflexivity |].
  apply (process_transaction_errors 0
           (stock_in_object 20 (Some full_product) false)
           (stock_in_object 20 (Some full_product) false)).
  - discriminate.
  - exact Hcost.
  - reflexivity.
Defined.

Lemma set_reference_number_normalises_witness :
  exists self1,
    set_reference_number (Some "  si-001 ") (__new__ StockInTransaction)
    = (Returns tt, self1)
    /\ reference_number self1 = "SI-001"
    /\ set_reference_number (Some "SI-001") self1 = (Returns tt, self1).
Proof.
  eexists. split; [reflexivity |]. split; [reflexivity |].
  exact (proj2 (proj2 (proj2
           (set_reference_number_normalises (Some "  si-001 ")
              (__new__ StockInTransaction) _ eq_refl)))).
Defined.

Lemma constructed_transaction_validates_witness :
  (exists self,
      create_transaction (Member STOCK_OUT) (stock_out_kwargs 5) = Returns self
      /\ validate self = [])
  /\ exists self,
      construct StockAdjustmentTransaction
        (StockAdjustmentTransaction__init__ (Some "adj-001") (Some 0) 3
           None None None) = Returns self
      /\ validate self <> [].
Proof.
  split.
  - eexists. split; [reflexivity |].
    apply (constructed_transaction_validates (Some "so-001") (Some 7) 5
             None None None).
    + left. reflexivity.
    + reflexivity.
  - eexists. split; [reflexivity |].
    intros Hv.
    apply (constructed_transaction_validates (Some "adj-001") (Some 0) 3
             None None None) in Hv.
    + discriminate Hv.
    + right. reflexivity.
Defined.

Lemma constructed_stock_in_validates_witness :
  float_safe (5 # 2)
  /\ exists self,
      create_transaction (Member STOCK_IN) (stock_in_kwargs 30) = Returns self
      /\ validate self = [].
Proof.
  split; [exact float_safe_sample |].
  assert (Hcost : forall c, Some (5 # 2)%Q = Some c -> float_safe c).
  { intros c [= <-]. exact float_safe_sample. }
  eexists. split; [reflexivity |].
  apply (constructed_stock_in_validates (Some " si-001 ") (Some 7) 30
           (Some (5 # 2)%Q) None None None _ Hcost eq_refl).
  split; [reflexivity |]. split; [lia |].
  exists (5 # 2)%Q. split; reflexivity.
Defined.

Lemma adjustment_availability_witness :
  exists self,
    create_transaction (Member ADJUSTMENT) (adjustment_kwargs (-5))
    = Returns self
    /\ quantity self = -5
    /\ exists msg,
        In msg (validate (set_product (Some (mkProduct 0 0 100 None)) self))
        /\ insufficient_stock_error msg = true.
Proof.
  eexists. split; [reflexivity |].
  destruct (adjustment_availability (Some "adj-001") (Some 7) (-5)
              None None None _ eq_refl) as (Hq & Hv).
  split; [exact Hq |].
  apply (Hv (mkProduct 0 0 100 None)). cbn. lia.
Defined.

Lemma create_transaction_errors_witness :
  create_transaction (Member ADJUSTMENT) (adjustment_kwargs 0)
    = Raises (ValueError "Transaction quantity cannot be zero")
  /\ create_transaction (Member STOCK_IN) (stock_out_kwargs 5)
     = Raises TypeError
  /\ (TypeError = TypeError
      \/ TypeError
         = ValueError "Reference number must be at least 3 characters long"
      \/ TypeError = ValueError "Transaction quantity cannot be zero"
      \/ TypeError = ValueError "Unit cost cannot be negative").
Proof.
  assert (Hin : In STOCK_IN get_supported_types) by (cbn; auto).
  split; [reflexivity |]. split; [reflexivity |].
  exact (create_transaction_errors STOCK_IN (stock_out_kwargs 5) TypeError
           Hin eq_refl).
Defined.

Lemma create_route_stock_out_witness :
  let self :=
    mkStockTransaction StockOutTransaction (Some STOCK_OUT) "SO-001" (-5)
      None None None false (Some 7) None None None None None in
  routes_stock_transaction.create_from_params STOCK_OUT (route_fields 5)
    = inr (Returns self)
  /\ quantity self = - Z.abs 5
  /\ reference_number self = upper (strip " so-001")
  /\ ~ (exists self',
           routes_stock_transaction.create_from_params STOCK_OUT
             (route_fields 0) = inr (Returns self')).
Proof.
  cbv zeta.
  destruct (create_route_stock_out (route_fields 5)) as (_ & Hstored).
  destruct (create_route_stock_out (route_fields 0)) as (Hiff & _).
  split; [reflexivity |].
  destruct (Hstored _ eq_refl) as (Hq & Href & _).
  split; [exact Hq |]. split; [exact Href |].
  intros H. apply Hiff in H. cbn in H. lia.
Defined.

Lemma update_product_stock_failure_unchanged_witness :
  routes_product.update_product_stock 0 (Some full_product)
    (stock_request "add" 20)
    = (routes_product.failure_str 400 (CapacityExceeded 20 100),
       Some full_product)
  /\ ((exists d,
          routes_product.failure_str 400 (CapacityExceeded 20 100)
          = routes_product.success 200 d)
      \/ full_product = full_product).
Proof.
  split; [reflexivity |].
  exact (update_product_stock_failure_unchanged 0 full_product full_product
           (stock_request "add" 20) _ eq_refl).
Defined.

Lemma update_product_stock_never_negative_witness :
  routes_product.update_product_stock 0 (Some shelf_product)
    (stock_request "reduce" 50)
    = (routes_product.success 200
         (routes_product.mk_stock_change "reduce" 50 50 0 "OUT_OF_STOCK"),
       Some (mkProduct 0 10 200 (Some 0)))
  /\ 0 <= _stock_quantity (mkProduct 0 10 200 (Some 0)).
Proof.
  assert (Hstock : 0 <= _stock_quantity shelf_product) by (cbn; lia).
  split; [reflexivity |].
  exact (proj1 (update_product_stock_never_negative 0 shelf_product
                  (mkProduct 0 10 200 (Some 0)) (stock_request "reduce" 50)
                  _ Hstock eq_refl)).
Defined.

Lemma update_product_stock_success_report_witness :
  let d := routes_product.mk_stock_change "add" 30 50 80 "NORMAL" in
  routes_product.update_product_stock 0 (Some shelf_product)
    (stock_request "add" 30)
    = (routes_product.success 200 d, Some (mkProduct 80 10 200 (Some 0)))
  /\ routes_product.r_new_quantity d
     = _stock_quantity (mkProduct 80 10 200 (Some 0))
  /\ routes_product.r_stock_status d
     = get_stock_status (mkProduct 80 10 200 (Some 0)).
Proof.
  cbv zeta. split; [reflexivity |].
  destruct (update_product_stock_success_report 0 shelf_product
              (mkProduct 80 10 200 (Some 0)) (stock_request "add" 30) 200
              (routes_product.mk_stock_change "add" 30 50 80 "NORMAL") eq_refl)
    as (_ & _ & Hnew & Hstatus & _).
  split; [exact Hnew | exact Hstatus].
Defined.

Lemma update_product_stock_add_reduce_invariant_witness :
  stock_invariant shelf_product
  /\ routes_product.update_product_stock 0 (Some shelf_product)
       (stock_request "add" 150)
     = (routes_product.success 200
          (routes_product.mk_stock_change "add" 150 50 200 "OVERSTOCK"),
        Some (mkProduct 200 10 200 (Some 0)))
  /\ stock_invariant (mkProduct 200 10 200 (Some 0)).
Proof.
  assert (Hinv : stock_invariant shelf_product)
    by (unfold stock_invariant; cbn; lia).
  split; [exact Hinv |]. split; [reflexivity |].
  exact (update_product_stock_add_reduce_invariant 0 shelf_product
           (mkProduct 200 10 200 (Some 0)) "add" (Some 150) _
           (or_introl eq_refl) Hinv eq_refl).
Defined.

Lemma process_route_conflict_witness :
  routes_stock_transaction.process_stock_transaction 0
    (Some (stock_in_object 30 (Some shelf_product) true))
  = (routes_stock_transaction.failure 409 "Transaction is already processed",
     Some (stock_in_object 30 (Some shelf_product) true)).
Proof.
  destruct (process_route_conflict 0
              (stock_in_object 30 (Some shelf_product) true)) as (H & _).
  apply H. reflexivity.
Defined.

Lemma process_route_success_report_witness :
  let done :=
    set__updated_at (Some 0)
      (set__is_processed true
         (stock_out_object (Some (mkProduct 45 10 200 (Some 0))))) in
  routes_stock_transaction.process_stock_transaction 0
    (Some (stock_out_object (Some shelf_product)))
  = (routes_stock_transaction.success 200 done 50 45 (-5), Some done)
  /\ is_processed done = true
  /\ -5 = quantity (stock_out_object (Some shelf_product)).
Proof.
  cbv zeta. split; [reflexivity |].
  destruct (process_route_success_report 0
              (stock_out_object (Some shelf_product)) _ _ 200 50 45 (-5)
              eq_refl) as (_ & _ & Hdone & _ & _ & Hchange).
  split; [exact Hdone | exact Hchange].
Defined.

Lemma process_route_failure_unchanged_witness :
  let self := stock_in_object 20 (Some full_product) false in
  routes_stock_transaction.process_stock_transaction 0 (Some self)
  = (routes_stock_transaction.failure_str 400 (CapacityExceeded 20 100),
     Some self)
  /\ ((exists old_stock new_stock change,
          routes_stock_transaction.failure_str 400 (CapacityExceeded 20 100)
          = routes_stock_transaction.success 200 self old_stock new_stock
              change)
      \/ self = self).
Proof.
  cbv zeta. split; [reflexivity |].
  exact (process_route_failure_unchanged 0
           (stock_in_object 20 (Some full_product) false)
           (stock_in_object 20 (Some full_product) false) _ eq_refl).
Defined.
